(** * Open WebUI knowledge uploader: the API client, embedded and verified

    A shallow embedding of [openwebui_uploader.py]: the allow-list filter
    [is_allowed_file] and the methods of [OpenWebUIClient].  The client talks
    to a remote service, the local file system and the clock; these are
    modelled as a [world] that answers each interaction from the history of
    all earlier interactions, and every interaction is appended to a trace.
    Python exceptions that the source does not catch are results of their
    own ([Raise]), so that "returns" and "raises" stay distinct.

    Conventions.
    - Python [str] is [string]; case folding is modelled on ASCII letters.
    - Paths follow POSIX [pathlib] (separator [/]), with [suffix] as defined
      by Python 3.8 to 3.13.
    - A decoded JSON value is a [json]; Python's [None] is [JNull].
    - Calls to [logger] have no effect on control flow and are left out.
    - [requests.request] either raises a [RequestException] ([ConnError]) or
      answers; a response carries its status, its Content-Type header and
      what [.json()] makes of its body.

    Layout: the embedding of the source comes first, then the notions used
    to read a run (exchanges with the world, kinds of traffic, the per-file
    state machine of the specification, example worlds), then the facts,
    grouped by method. *)

From Stdlib Require Import List String Ascii ZArith QArith Bool Lia Arith.
From Stdlib Require Import DecimalString Sorted Permutation.
Import ListNotations.
Set Warnings "-register-all".
Local Open Scope string_scope.
Local Open Scope list_scope.

(* ================================================================== *)
(** ** Python strings *)

Module PyStr.

(** [c.lower()] for one character. *)
Definition lower_ascii (c : ascii) : ascii :=
  let n := nat_of_ascii c in
  if (65 <=? n)%nat && (n <=? 90)%nat then ascii_of_nat (n + 32) else c.

(** [s.lower()] *)
Fixpoint lower (s : string) : string :=
  match s with
  | EmptyString => EmptyString
  | String c r => String (lower_ascii c) (lower r)
  end.

(** [s[n:]] *)
Fixpoint drop (n : nat) (s : string) : string :=
  match n, s with
  | O, _ => s
  | S _, EmptyString => EmptyString
  | S k, String _ r => drop k r
  end.

(** [s.startswith(p)] *)
Fixpoint startswith (p s : string) : bool :=
  match p, s with
  | EmptyString, _ => true
  | String _ _, EmptyString => false
  | String a p', String b s' => Ascii.eqb a b && startswith p' s'
  end.

(** [sub in s] *)
Fixpoint contains (sub s : string) : bool :=
  startswith sub s ||
  match s with
  | EmptyString => false
  | String _ r => contains sub r
  end.

(** [s.rfind(c)]: index of the last occurrence of [c]; [None] is Python's -1. *)
Fixpoint rfind (c : ascii) (s : string) : option nat :=
  match s with
  | EmptyString => None
  | String a r =>
      match rfind c r with
      | Some i => Some (S i)
      | None => if Ascii.eqb a c then Some O else None
      end
  end.

(** [s.split(c)] for a one-character separator. *)
Fixpoint split (c : ascii) (s : string) : list string :=
  match s with
  | EmptyString => [EmptyString]
  | String a r =>
      if Ascii.eqb a c then EmptyString :: split c r
      else match split c r with
           | [] => [String a EmptyString]
           | w :: ws => String a w :: ws
           end
  end.

(** [s.rstrip(c)] for a one-character set. *)
Fixpoint rstrip (c : ascii) (s : string) : string :=
  match s with
  | EmptyString => EmptyString
  | String a r =>
      match rstrip c r with
      | EmptyString => if Ascii.eqb a c then EmptyString else String a EmptyString
      | r' => String a r'
      end
  end.

(** [s.replace(old, new)]: occurrences are replaced left to right without
    overlap; [skip] counts the characters of a match still to be passed. *)
Fixpoint replace_from (old new : string) (skip : nat) (s : string) : string :=
  match s with
  | EmptyString =>
      match old with EmptyString => new | _ => EmptyString end
  | String a r =>
      match skip with
      | S k => replace_from old new k r
      | O =>
          if startswith old s then
            match old with
            | EmptyString => new ++ String a (replace_from old new O r)
            | String _ _ => new ++ replace_from old new (String.length old - 1) r
            end
          else String a (replace_from old new O r)
      end
  end.

Definition replace (old new s : string) : string := replace_from old new O s.

(** [s in l] for a list of strings. *)
Definition mem (s : string) (l : list string) : bool :=
  existsb (String.eqb s) l.

End PyStr.

(* ================================================================== *)
(** ** Paths: [pathlib.Path] and [os.path] on POSIX *)

Module PyPath.

(** The components [pathlib] keeps: empty ones and ["."] are dropped. *)
Definition parts (p : string) : list string :=
  filter (fun x => negb (String.eqb x "") && negb (String.eqb x "."))
         (PyStr.split "/" p).

(** [Path(p).name]: the final component, [""] when there is none. *)
Definition name (p : string) : string := last (parts p) "".

(** [Path(p).suffix]: from the last dot of the name on, when that dot is
    neither the first nor the last character. *)
Definition suffix (p : string) : string :=
  let n := name p in
  match PyStr.rfind "." n with
  | Some i => if (0 <? i)%nat && (i <? String.length n - 1)%nat
              then PyStr.drop i n else ""
  | None => ""
  end.

(** [os.path.basename(p)]: what follows the last [/]. *)
Definition basename (p : string) : string :=
  match PyStr.rfind "/" p with
  | Some i => PyStr.drop (S i) p
  | None => p
  end.

End PyPath.

(** [is_allowed_file] *)
Definition system_files : list string := [".ds_store"; "thumbs.db"].
Definition allowed_extensions : list string :=
  [".md"; ".txt"; ".pdf"; ".doc"; ".docx"].

Definition is_allowed_file (file_path : string) : bool :=
  let filename := PyStr.lower (PyPath.name file_path) in
  if PyStr.mem filename system_files then false
  else
    let extension := PyStr.lower (PyPath.suffix file_path) in
    PyStr.mem extension allowed_extensions.

(* ================================================================== *)
(** ** Python values decoded from JSON *)

Inductive json : Type :=
| JNull                                   (* None *)
| JBool (b : bool)
| JNum (z : Z)                            (* int *)
| JFloat (q : Q)                          (* float *)
| JStr (s : string)
| JArr (l : list json)                    (* list *)
| JObj (kv : list (string * json)).       (* dict, in insertion order *)

(** Truth value of a Python object, as [if x:] and [not x] test it. *)
Definition truthy (v : json) : bool :=
  match v with
  | JNull => false
  | JBool b => b
  | JNum z => negb (z =? 0)%Z
  | JFloat q => negb (Qeq_bool q 0)
  | JStr s => negb (String.eqb s "")
  | JArr l => match l with [] => false | _ => true end
  | JObj kv => match kv with [] => false | _ => true end
  end.

(** Exceptions the client does not catch. *)
Inductive exn : Type := AttributeError | TypeError.

Inductive res (A : Type) : Type :=
| Ret (a : A)
| Raise (e : exn).
Arguments Ret {A} a.
Arguments Raise {A} e.

(** [d.get(k, default)] on a dict. *)
Fixpoint dict_get (kv : list (string * json)) (k : string) (default : json) : json :=
  match kv with
  | [] => default
  | (k', v) :: r => if String.eqb k' k then v else dict_get r k default
  end.

(** [x.get(k, default)] on any value: only a dict has the method. *)
Definition py_get (x : json) (k : string) (default : json) : res json :=
  match x with
  | JObj kv => Ret (dict_get kv k default)
  | _ => Raise AttributeError
  end.

(** The characters of a string, each a string of its own. *)
Fixpoint chars (s : string) : list json :=
  match s with
  | EmptyString => []
  | String c r => JStr (String c EmptyString) :: chars r
  end.

(** The items [for x in v] runs over; numbers, booleans and [None] are not
    iterable. *)
Definition py_iter (v : json) : res (list json) :=
  match v with
  | JArr l => Ret l
  | JObj kv => Ret (map (fun e => JStr (fst e)) kv)
  | JStr s => Ret (chars s)
  | _ => Raise TypeError
  end.

(** [v == s] for a string [s]. *)
Definition eq_str (v : json) (s : string) : bool :=
  match v with
  | JStr t => String.eqb t s
  | _ => false
  end.

(* ================================================================== *)
(** ** The world: remote service, file system, clock *)

Inductive method : Type := GET | POST.

(** The keyword arguments that carry a body: [json=] or [files=]. *)
Inductive body : Type :=
| NoBody
| Json (payload : json)
| Files (field filename file : string).  (* {field: (filename, open(file))} *)

Record request : Type := mkRequest {
  rq_method : method;
  rq_url : string;
  rq_headers : list (string * string);
  rq_body : body
}.

Record response : Type := mkResponse {
  status_code : Z;
  content_type : option string;   (* the Content-Type header, if any *)
  json_body : option json         (* [.json()]; [None]: it raises ValueError *)
}.

(** What [requests.request] does: raise a [RequestException] or answer. *)
Inductive outcome : Type :=
| ConnError
| Answer (r : response).

Inductive event : Type :=
| EvIsFile (path : string) (found : bool)       (* os.path.isfile *)
| EvOpen (path : string) (opened : bool)        (* open(path, "rb") *)
| EvRequest (rq : request) (o : outcome)        (* requests.request *)
| EvSleep (seconds : Q).                        (* time.sleep *)

(** Each interaction is answered from the history so far. [w_str] is
    Python's [str()] as an f-string applies it to a decoded value. *)
Record world : Type := mkWorld {
  w_request : list event -> request -> outcome;
  w_isfile : list event -> string -> bool;
  w_open : list event -> string -> bool;   (* [false]: IOError *)
  w_str : json -> string
}.

(** [raise_for_status] raises for 4xx and 5xx. *)
Definition http_error (r : response) : bool :=
  ((400 <=? status_code r) && (status_code r <? 600))%Z.

(** [bool(response)] is [response.ok]. *)
Definition ok (r : response) : bool := negb (http_error r).

(** [response.headers.get("Content-Type", "")] *)
Definition content_type_or_empty (r : response) : string :=
  match content_type r with Some s => s | None => "" end.

(* ================================================================== *)
(** ** The client object and its monad *)

Record client : Type := mkClient {
  api_endpoint : string;
  api_key : string;
  headers : list (string * string);
  upload_headers : list (string * string);
  _knowledge_endpoint : option string
}.

(** [OpenWebUIClient.__init__] *)
Definition init (endpoint key : string) : client :=
  {| api_endpoint := PyStr.rstrip "/" endpoint;
     api_key := key;
     headers := [("Authorization", ("Bearer " ++ key)%string);
                 ("Accept", "application/json");
                 ("Content-Type", "application/json")];
     upload_headers := [("Authorization", ("Bearer " ++ key)%string);
                        ("Accept", "application/json")];
     _knowledge_endpoint := None |}.

Definition set_knowledge_endpoint (c : client) (e : string) : client :=
  {| api_endpoint := api_endpoint c;
     api_key := api_key c;
     headers := headers c;
     upload_headers := upload_headers c;
     _knowledge_endpoint := Some e |}.

(** [if self._knowledge_endpoint:] *)
Definition discovered (c : client) : bool :=
  match _knowledge_endpoint c with
  | Some e => negb (String.eqb e "")
  | None => false
  end.

Record state : Type := mkState {
  self : client;
  trace : list event
}.

Definition M (A : Type) : Type := state -> res A * state.

Definition ret {A} (a : A) : M A := fun st => (Ret a, st).

Definition bind {A B} (m : M A) (k : A -> M B) : M B :=
  fun st =>
    match m st with
    | (Ret a, st') => k a st'
    | (Raise e, st') => (Raise e, st')
    end.

Definition lift {A} (r : res A) : M A := fun st => (r, st).

Declare Scope py_scope.
Delimit Scope py_scope with py.
Notation "x <- m ;; k" := (bind m (fun x => k))
  (at level 61, m at next level, right associativity) : py_scope.
Notation "m ;;; k" := (bind m (fun _ => k))
  (at level 61, right associativity) : py_scope.
Local Open Scope py_scope.

Definition get_self : M client := fun st => (Ret (self st), st).

Definition put_endpoint (e : string) : M unit :=
  fun st => (Ret tt, {| self := set_knowledge_endpoint (self st) e;
                        trace := trace st |}).

Definition emit (ev : event) (st : state) : state :=
  {| self := self st; trace := trace st ++ [ev] |}.

(* ================================================================== *)
(** ** The methods of [OpenWebUIClient] *)

(** The result dictionary of a batch. *)
Record batch : Type := mkBatch {
  success : Z;
  failed : Z;
  total : Z;
  errors : list string
}.

(** [len(l)] *)
Definition len {A} (l : list A) : Z := Z.of_nat (List.length l).

(** [range(n)] *)
Definition range (n : Z) : list Z := map Z.of_nat (seq 0 (Z.to_nat n)).

Section Client.

Variable w : world.

Definition isfile (path : string) : M bool :=
  fun st => let b := w_isfile w (trace st) path in
            (Ret b, emit (EvIsFile path b) st).

Definition open_rb (path : string) : M bool :=
  fun st => let b := w_open w (trace st) path in
            (Ret b, emit (EvOpen path b) st).

Definition send (rq : request) : M outcome :=
  fun st => let o := w_request w (trace st) rq in
            (Ret o, emit (EvRequest rq o) st).

Definition sleep (seconds : Q) : M unit :=
  fun st => (Ret tt, emit (EvSleep seconds) st).

(** [_make_request]: the response, or [None] when the request raised or
    [raise_for_status] did. *)
Definition _make_request (m : method) (endpoint : string)
    (hdrs : list (string * string)) (b : body) : M (option response) :=
  c <- get_self ;;
  let url := (api_endpoint c ++ endpoint)%string in
  o <- send (mkRequest m url hdrs b) ;;
  match o with
  | Answer r => if http_error r then ret None else ret (Some r)
  | ConnError => ret None
  end.

(** [if response:] on what [_make_request] returned. *)
Definition responded (resp : option response) : option response :=
  match resp with
  | Some r => if ok r then Some r else None
  | None => None
  end.

Definition is_html (r : response) : bool :=
  PyStr.contains "text/html" (PyStr.lower (content_type_or_empty r)).

Definition list_endpoints : list string :=
  ["/api/v1/workspace/knowledge"; "/api/v1/knowledges"; "/api/v1/knowledge"].

(** The [for endpoint in endpoints_to_try] loop of
    [list_knowledge_collections]. *)
Fixpoint list_loop (endpoints_to_try : list string) : M json :=
  match endpoints_to_try with
  | [] => ret (JArr [])
  | endpoint :: rest =>
      c <- get_self ;;
      response <- _make_request GET endpoint (headers c) NoBody ;;
      match responded response with
      | Some r =>
          if is_html r then list_loop rest
          else match json_body r with
               | Some result => put_endpoint endpoint ;;; ret result
               | None => list_loop rest
               end
      | None => list_loop rest
      end
  end.

Definition list_knowledge_collections : M json :=
  list_loop list_endpoints.

(** The [for collection in collections] loop of
    [get_knowledge_collection_id]. *)
Fixpoint find_collection (name : string) (collections : list json) : res json :=
  match collections with
  | [] => Ret JNull
  | collection :: rest =>
      match py_get collection "name" JNull with
      | Ret n =>
          if eq_str n name then py_get collection "id" JNull
          else find_collection name rest
      | Raise e => Raise e
      end
  end.

Definition get_knowledge_collection_id (name : string) : M json :=
  collections <- list_knowledge_collections ;;
  items <- lift (py_iter collections) ;;
  lift (find_collection name items).

Definition create_endpoints (c : client) : list string :=
  let base_endpoint :=
    match _knowledge_endpoint c with
    | Some e => if discovered c then e else "/api/v1/workspace/knowledge"
    | None => "/api/v1/workspace/knowledge"
    end in
  [(base_endpoint ++ "/create")%string;
   "/api/v1/workspace/knowledge/create";
   "/api/v1/knowledges/create";
   "/api/v1/knowledge/create"].

(** The [for endpoint in endpoints_to_try] loop of
    [create_knowledge_collection]. *)
Fixpoint create_loop (payload : json) (endpoints_to_try : list string) : M json :=
  match endpoints_to_try with
  | [] => ret JNull
  | endpoint :: rest =>
      c <- get_self ;;
      response <- _make_request POST endpoint (headers c) (Json payload) ;;
      match responded response with
      | Some r =>
          if is_html r then create_loop payload rest
          else match json_body r with
               | Some result =>
                   collection_id <- lift (py_get result "id" JNull) ;;
                   c' <- get_self ;;
                   (if discovered c' then ret tt
                    else put_endpoint (PyStr.replace "/create" "" endpoint)) ;;;
                   ret collection_id
               | None => create_loop payload rest
               end
      | None => create_loop payload rest
      end
  end.

Definition create_knowledge_collection (name description : string) : M json :=
  c <- get_self ;;
  let payload := JObj [("name", JStr name); ("description", JStr description)] in
  create_loop payload (create_endpoints c).

(** The fields [upload_file] reads from the response for its log line:
    [filename], [meta.size] and [data.status]. *)
Definition upload_log_fields (result : json) : res unit :=
  match py_get result "filename" JNull with
  | Raise e => Raise e
  | Ret filename =>
      match (if truthy filename then Ret filename
             else match py_get result "meta" (JObj []) with
                  | Ret meta => py_get meta "name" JNull
                  | Raise e => Raise e
                  end) with
      | Raise e => Raise e
      | Ret _ =>
          match py_get result "meta" (JObj []) with
          | Raise e => Raise e
          | Ret meta =>
              match py_get meta "size" JNull with
              | Raise e => Raise e
              | Ret _ =>
                  match py_get result "data" (JObj []) with
                  | Raise e => Raise e
                  | Ret data =>
                      match py_get data "status" (JStr "unknown") with
                      | Raise e => Raise e
                      | Ret _ => Ret tt
                      end
                  end
              end
          end
      end
  end.

Definition upload_file (file_path : string) : M json :=
  found <- isfile file_path ;;
  if negb found then ret JNull
  else if negb (is_allowed_file file_path) then ret JNull
  else
    opened <- open_rb file_path ;;
    if negb opened then ret JNull
    else
      c <- get_self ;;
      response <- _make_request POST "/api/v1/files/" (upload_headers c)
                    (Files "file" (PyPath.basename file_path) file_path) ;;
      match responded response with
      | Some r =>
          match json_body r with
          | Some result =>
              file_id <- lift (py_get result "id" JNull) ;;
              lift (upload_log_fields result) ;;;
              ret file_id
          | None => ret JNull
          end
      | None => ret JNull
      end.

Definition link_endpoint (knowledge_id : json) : string :=
  ("/api/v1/knowledge/" ++ w_str w knowledge_id ++ "/file/add")%string.

(** The [for attempt in range(retries)] loop of [add_file_to_knowledge]. *)
Fixpoint add_loop (knowledge_id : json) (payload : json) (retries : Z)
    (retry_delay : Q) (attempts : list Z) : M bool :=
  match attempts with
  | [] => ret false
  | attempt :: rest =>
      c <- get_self ;;
      response <- _make_request POST (link_endpoint knowledge_id)
                    (headers c) (Json payload) ;;
      match responded response with
      | Some _ => ret true
      | None =>
          (if (attempt <? retries - 1)%Z then sleep retry_delay else ret tt) ;;;
          add_loop knowledge_id payload retries retry_delay rest
      end
  end.

Definition add_file_to_knowledge (knowledge_id file_id : json)
    (retries : Z) (retry_delay : Q) : M bool :=
  let payload := JObj [("file_id", file_id)] in
  add_loop knowledge_id payload retries retry_delay (range retries).

Definition default_retries : Z := 3.
Definition default_retry_delay : Q := 5.
Definition settle_delay : Q := 1 # 2.

Definition count_success (results : batch) : batch :=
  mkBatch (success results + 1) (failed results) (total results) (errors results).

Definition count_failure (results : batch) (message : string) : batch :=
  mkBatch (success results) (failed results + 1) (total results)
          (errors results ++ [message]).

(** The [for file_path in file_paths] loop of [upload_files_to_knowledge]. *)
Fixpoint upload_loop (knowledge_id : json) (file_paths : list string)
    (results : batch) : M batch :=
  match file_paths with
  | [] => ret results
  | file_path :: rest =>
      file_id <- upload_file file_path ;;
      if truthy file_id then
        sleep settle_delay ;;;
        linked <- add_file_to_knowledge knowledge_id file_id
                    default_retries default_retry_delay ;;
        if linked then upload_loop knowledge_id rest (count_success results)
        else upload_loop knowledge_id rest
               (count_failure results
                  ("Failed to add " ++ file_path ++ " to knowledge collection")%string)
      else upload_loop knowledge_id rest
             (count_failure results ("Failed to upload " ++ file_path)%string)
  end.

Definition all_failed (file_paths : list string) (message : string) : batch :=
  mkBatch 0 (len file_paths) (len file_paths) [message].

Definition upload_files_to_knowledge (knowledge_name : string)
    (file_paths : list string) (create_if_missing : bool)
    (description : string) : M batch :=
  found_id <- get_knowledge_collection_id knowledge_name ;;
  let upload_files knowledge_id :=
    upload_loop knowledge_id file_paths (mkBatch 0 0 (len file_paths) []) in
  if negb (truthy found_id) then
    if create_if_missing then
      created_id <- create_knowledge_collection knowledge_name description ;;
      if negb (truthy created_id) then
        ret (all_failed file_paths
               ("Failed to create knowledge collection '" ++ knowledge_name ++ "'")%string)
      else upload_files created_id
    else
      ret (all_failed file_paths
             ("Knowledge collection '" ++ knowledge_name ++ "' not found")%string)
  else upload_files found_id.

End Client.

(* ================================================================== *)
(** ** Reading runs: outcomes, exchanges, traces *)

(** What [_make_request] makes of an outcome. *)
Definition request_result (o : outcome) : option response :=
  match o with
  | Answer r => if http_error r then None else Some r
  | ConnError => None
  end.

(** The JSON a listing or create candidate yields: the request must not
    fail, the content type must not be HTML and the body must parse. *)
Definition parsed (o : outcome) : option json :=
  match request_result o with
  | Some r => if is_html r then None else json_body r
  | None => None
  end.

Definition parsed_ev (ev : event) : option json :=
  match ev with
  | EvRequest _ o => parsed o
  | _ => None
  end.

(** The world answering the requests [rqs] one after the other, starting
    from history [h]. *)
Fixpoint exchange (w : world) (h : list event) (rqs : list request) : list event :=
  match rqs with
  | [] => []
  | rq :: rest =>
      let ev := EvRequest rq (w_request w h rq) in
      ev :: exchange w (h ++ [ev]) rest
  end.

Definition list_request (c : client) (endpoint : string) : request :=
  mkRequest GET (api_endpoint c ++ endpoint) (headers c) NoBody.

Definition create_payload (name description : string) : json :=
  JObj [("name", JStr name); ("description", JStr description)].

Definition create_request (c : client) (payload : json) (endpoint : string) : request :=
  mkRequest POST (api_endpoint c ++ endpoint) (headers c) (Json payload).

Definition link_request (w : world) (c : client) (knowledge_id file_id : json) : request :=
  mkRequest POST (api_endpoint c ++ link_endpoint w knowledge_id) (headers c)
            (Json (JObj [("file_id", file_id)])).

Definition upload_request (c : client) (file_path : string) : request :=
  mkRequest POST (api_endpoint c ++ "/api/v1/files/") (upload_headers c)
            (Files "file" (PyPath.basename file_path) file_path).

Definition is_request (ev : event) : bool :=
  match ev with EvRequest _ _ => true | _ => false end.

(** Number of request attempts in a trace. *)
Definition attempts (t : list event) : nat := List.length (filter is_request t).

(** The paths checked with [os.path.isfile], in order. *)
Fixpoint checked_paths (t : list event) : list string :=
  match t with
  | [] => []
  | EvIsFile p _ :: r => p :: checked_paths r
  | _ :: r => checked_paths r
  end.

(* ------------------------------------------------------------------ *)
(** *** Example worlds *)

(** [str()] of a string is the string; the examples format nothing else. *)
Definition str_of_id (v : json) : string :=
  match v with JStr s => s | _ => "" end.

Definition not_found : outcome := Answer (mkResponse 404 (Some "application/json") None).
Definition html_page : outcome := Answer (mkResponse 200 (Some "text/HTML; charset=utf-8") None).
Definition json_answer (j : json) : outcome :=
  Answer (mkResponse 200 (Some "application/json") (Some j)).

Definition docs_listing : json :=
  JArr [JObj [("id", JStr "k0"); ("name", JStr "docs")];
        JObj [("id", JStr "k1"); ("name", JStr "Docs")];
        JObj [("id", JStr "k2"); ("name", JStr "Docs")]].

Definition uploaded : json :=
  JObj [("id", JStr "f1"); ("filename", JStr "a.md");
        ("meta", JObj [("name", JStr "a.md"); ("size", JNum 12)]);
        ("data", JObj [("status", JStr "pending")])].

(** A service at [http://h] that lists under [/api/v1/knowledge] only,
    serves a web page under [/api/v1/knowledges], creates under
    [/api/v1/workspace/knowledge/create] only, and accepts uploads and links.
    Locally, every path but [gone.md] is a readable file. *)
Definition service (h : list event) (rq : request) : outcome :=
  match rq_method rq with
  | GET =>
      if String.eqb (rq_url rq) "http://h/api/v1/knowledge" then json_answer docs_listing
      else if String.eqb (rq_url rq) "http://h/api/v1/knowledges" then html_page
      else not_found
  | POST =>
      if String.eqb (rq_url rq) "http://h/api/v1/workspace/knowledge/create"
      then json_answer (JObj [("id", JStr "k9"); ("name", JStr "new")])
      else if String.eqb (rq_url rq) "http://h/api/v1/files/" then json_answer uploaded
      else if String.eqb (rq_url rq) "http://h/api/v1/knowledge/k1/file/add"
      then json_answer (JObj [])
      else not_found
  end.

Definition demo_world : world :=
  mkWorld service
          (fun _ p => negb (String.eqb p "gone.md"))
          (fun _ _ => true)
          str_of_id.

(** A service that cannot be reached. *)
Definition down_world : world :=
  mkWorld (fun _ _ => ConnError) (fun _ _ => true) (fun _ _ => true) str_of_id.

Definition demo_client : client := init "http://h/" "secret".
Definition demo_state : state := mkState demo_client [].

(* ------------------------------------------------------------------ *)
(** *** The claim on caching after a create, as the specification words it *)

(** Whenever the create succeeds via candidate [k], the cached endpoint is
    that candidate's base afterwards. *)
Definition caches_base_of_success (w : world) (name description : string)
    (st : state) : Prop :=
  let c := self st in
  let tries := exchange w (trace st)
                 (map (create_request c (create_payload name description))
                      (create_endpoints c)) in
  forall k endpoint ev j v,
    nth_error (create_endpoints c) k = Some endpoint ->
    Forall (fun ev => parsed_ev ev = None) (firstn k tries) ->
    nth_error tries k = Some ev ->
    parsed_ev ev = Some j ->
    py_get j "id" JNull = Ret v ->
    _knowledge_endpoint
      (self (snd (create_knowledge_collection w name description st)))
    = Some (PyStr.replace "/create" "" endpoint).

(** [demo_state] after one lookup: [/api/v1/knowledge] is discovered. *)
Definition demo_state_discovered : state :=
  snd (get_knowledge_collection_id demo_world "new" demo_state).

(* ------------------------------------------------------------------ *)
(** *** Shapes of link traffic *)

(** The keys of a JSON request body. *)
Definition payload_keys (b : body) : list string :=
  match b with
  | Json (JObj kv) => map fst kv
  | _ => []
  end.

(** What a run of [add_file_to_knowledge] may add to the trace: the link
    request, and waits of [retry_delay]. *)
Definition link_event (rq0 : request) (retry_delay : Q) (ev : event) : Prop :=
  match ev with
  | EvRequest rq _ => rq = rq0
  | EvSleep s => s = retry_delay
  | _ => False
  end.

(* ------------------------------------------------------------------ *)
(** *** Names and extensions up to letter case *)

Definition upper_ascii (c : ascii) : ascii :=
  let n := nat_of_ascii c in
  if (97 <=? n)%nat && (n <=? 122)%nat then ascii_of_nat (n - 32) else c.

(** Two characters that are the same, or the same letter in two cases. *)
Definition same_letter (a b : ascii) : Prop :=
  a = b \/ upper_ascii a = b \/ a = upper_ascii b.

(** [s] is [t] written in some letter case. *)
Fixpoint same_ignoring_case (s t : string) : Prop :=
  match s, t with
  | EmptyString, EmptyString => True
  | String a s', String b t' => same_letter a b /\ same_ignoring_case s' t'
  | _, _ => False
  end.

(** The files the allow-list turns away: the two system files in any letter
    case, and every extension that is none of the allowed ones in any
    letter case. *)
Definition system_file (file_path : string) : Prop :=
  same_ignoring_case (PyPath.name file_path) ".DS_Store" \/
  same_ignoring_case (PyPath.name file_path) "Thumbs.db".

Definition extension_outside (file_path : string) : Prop :=
  forall e, In e allowed_extensions ->
            ~ same_ignoring_case (PyPath.suffix file_path) e.

(* ------------------------------------------------------------------ *)
(** *** The per-file state machine of the specification *)

(** The terminal states of one file: [pending -> uploaded -> linked], or
    [pending -> upload_failed], or [uploaded -> link_failed]. *)
Inductive fate : Type := Linked | UploadFailed | LinkFailed.

(** One file taken through upload, settle delay and link. *)
Definition process (w : world) (knowledge_id : json) (file_path : string) : M fate :=
  (file_id <- upload_file w file_path ;;
   if truthy file_id then
     sleep settle_delay ;;;
     linked <- add_file_to_knowledge w knowledge_id file_id
                 default_retries default_retry_delay ;;
     ret (if linked then Linked else LinkFailed)
   else ret UploadFailed)%py.

(** The files of a batch taken through it one after the other. *)
Fixpoint fates (w : world) (knowledge_id : json) (file_paths : list string)
    : M (list fate) :=
  match file_paths with
  | [] => ret []
  | file_path :: rest =>
      (f <- process w knowledge_id file_path ;;
       fs <- fates w knowledge_id rest ;;
       ret (f :: fs))%py
  end.

(** What a file in a given terminal state adds to the result. *)
Definition record_fate (results : batch) (file_path : string) (f : fate) : batch :=
  match f with
  | Linked => count_success results
  | UploadFailed => count_failure results ("Failed to upload " ++ file_path)
  | LinkFailed =>
      count_failure results
        ("Failed to add " ++ file_path ++ " to knowledge collection")
  end.

Fixpoint tally (results : batch) (file_paths : list string) (fs : list fate) : batch :=
  match file_paths, fs with
  | file_path :: rest, f :: fs' => tally (record_fate results file_path f) rest fs'
  | _, _ => results
  end.

(** Upload answers of the documented shape: a JSON body is an object whose
    [meta] and [data] fields, when present, are objects, so that
    [upload_file] can read its fields. *)
Definition upload_answers_well_formed (w : world) : Prop :=
  forall h rq r j field filename file,
    rq_body rq = Files field filename file ->
    w_request w h rq = Answer r ->
    json_body r = Some j ->
    (exists file_id, py_get j "id" JNull = Ret file_id) /\
    upload_log_fields j = Ret tt.

(* ------------------------------------------------------------------ *)
(** *** Kinds of traffic *)

(** The fields of the client that no method changes. *)
Definition same_config (c c' : client) : Prop :=
  api_endpoint c' = api_endpoint c /\ api_key c' = api_key c /\
  headers c' = headers c /\ upload_headers c' = upload_headers c.

(** The traffic of collection lookup and creation: a GET for a listing
    candidate, or a POST of [{name, description}] to a [/create] path. *)
Definition collection_traffic (c : client) (name description : string)
    (ev : event) : Prop :=
  match ev with
  | EvRequest rq _ =>
      (exists e, In e list_endpoints /\ rq = list_request c e) \/
      (exists base, rq = create_request c (create_payload name description)
                           (base ++ "/create"))
  | _ => False
  end.

(** An upload call carries a file. *)
Definition is_upload_call (ev : event) : bool :=
  match ev with
  | EvRequest rq _ =>
      match rq_body rq with Files _ _ _ => true | _ => false end
  | _ => false
  end.

(** A link call carries a [file_id]. *)
Definition is_link_call (ev : event) : bool :=
  match ev with
  | EvRequest rq _ => PyStr.mem "file_id" (payload_keys (rq_body rq))
  | _ => false
  end.

Definition is_file_access (ev : event) : bool :=
  match ev with
  | EvIsFile _ _ | EvOpen _ _ => true
  | _ => false
  end.

(** A remote whose answer to a request does not depend on what happened
    before: the same responses to the same requests. *)
Definition unchanged_remote (w : world) : Prop :=
  forall h h' rq, w_request w h rq = w_request w h' rq.

(* ================================================================== *)
(** ** The command line: [cli.py] *)

Module Cli.

(** What [pathlib] reports about the local tree.  Paths are the strings
    [str()] gives for them. *)
Record filesystem : Type := mkFs {
  fs_exists : string -> bool;            (* Path(p).exists() *)
  fs_is_dir : string -> bool;            (* Path(p).is_dir() *)
  fs_rglob : string -> list string;      (* Path(p).rglob('*') *)
  fs_iterdir : string -> list string;    (* Path(p).iterdir() *)
  fs_is_file : string -> bool            (* Path(q).is_file() *)
}.

(** [sorted(files)] on strings: ascending in the order of [<=] on [str]. *)
Fixpoint insert (x : string) (l : list string) : list string :=
  match l with
  | [] => [x]
  | y :: r => if String.leb x y then x :: l else y :: insert x r
  end.

Fixpoint sorted (l : list string) : list string :=
  match l with
  | [] => []
  | x :: r => insert x (sorted r)
  end.

(** [collect_files] returns a list or raises [ValueError]. *)
Inductive collected : Type :=
| Collected (files : list string)
| ValueError (message : string).

Definition collect_files (fs : filesystem) (directory : string)
    (recursive : bool) : collected :=
  if negb (fs_exists fs directory) then
    ValueError ("Directory does not exist: " ++ directory)
  else if negb (fs_is_dir fs directory) then
    ValueError ("Path is not a directory: " ++ directory)
  else
    let found := if recursive then fs_rglob fs directory
                 else fs_iterdir fs directory in
    Collected (sorted (filter (fs_is_file fs) found)).

(** The parsed arguments of [main]. *)
Record arguments : Type := mkArguments {
  endpoint : string;
  api_key : option string;     (* --api-key, else OPEN_WEBUI_API_KEY, else None *)
  knowledge : string;
  create : bool;
  description : string;
  path : string;
  recursive : bool;
  verbose : bool
}.

(** [str(n)] for an int. *)
Definition str_of_int (n : Z) : string := NilZero.string_of_int (Z.to_int n).

Definition newline : string := String (ascii_of_nat 10) EmptyString.

(** ["=" * n] *)
Fixpoint repeat_eq (n : nat) : string :=
  match n with
  | O => EmptyString
  | S k => String "="%char (repeat_eq k)
  end.

(** The lines [main] prints for a result, one entry per [print]. *)
Definition summary (results : batch) : list string :=
  [(newline ++ repeat_eq 60)%string;
   "Upload Summary";
   repeat_eq 60;
   ("Total files: " ++ str_of_int (total results))%string;
   ("Successful: " ++ str_of_int (success results))%string;
   ("Failed: " ++ str_of_int (failed results))%string]
  ++ (match errors results with
      | [] => []
      | _ => (newline ++ "Errors:")%string
             :: map (fun error => ("  - " ++ error)%string) (errors results)
      end)
  ++ [repeat_eq 60].

(** A run of [main]: the exit code, what was printed, and the client's
    interactions. *)
Record run : Type := mkRun {
  exit_code : Z;
  stdout : list string;
  interactions : list event
}.

Definition exit (code : Z) : run := mkRun code [] [].

(** [args.endpoint.startswith(('http://', 'https://'))] *)
Definition has_http_scheme (e : string) : bool :=
  PyStr.startswith "http://" e || PyStr.startswith "https://" e.

(** [main] after argument parsing.  An exception the client raises is
    caught by [except Exception]; [KeyboardInterrupt] is not modelled. *)
Definition main (fs : filesystem) (w : world) (args : arguments) : run :=
  match api_key args with
  | None => exit 1
  | Some key =>
      if String.eqb key "" then exit 1
      else if negb (has_http_scheme (endpoint args)) then exit 1
      else
        match collect_files fs (path args) (recursive args) with
        | ValueError _ => exit 1
        | Collected [] => exit 0
        | Collected files =>
            let client := init (endpoint args) key in
            match upload_files_to_knowledge w (knowledge args) files
                    (create args) (description args) (mkState client []) with
            | (Ret results, st) =>
                mkRun (if (failed results >? 0)%Z then 1 else 0)
                      (summary results) (trace st)
            | (Raise _, st) => mkRun 1 [] (trace st)
            end
        end
  end.

End Cli.

(* ------------------------------------------------------------------ *)
(** *** A service with answers of another shape *)

(** An upload answer whose [meta] is [null]. *)
Definition null_meta_upload : json := JObj [("id", JStr "f1"); ("meta", JNull)].

(** A service that wraps its listing in an object, answers [[]] to a
    create, and answers uploads with [null_meta_upload]. *)
Definition odd_service (h : list event) (rq : request) : outcome :=
  match rq_method rq, rq_body rq with
  | GET, _ => json_answer (JObj [("items", docs_listing); ("total", JNum 3)])
  | POST, Files _ _ _ => json_answer null_meta_upload
  | POST, _ => json_answer (JArr [])
  end.

Definition odd_world : world :=
  mkWorld odd_service (fun _ _ => true) (fun _ _ => true) str_of_id.

Definition is_sleep (ev : event) : bool :=
  match ev with EvSleep _ => true | _ => false end.

(** Number of waits in a trace. *)
Definition sleeps (t : list event) : nat := List.length (filter is_sleep t).

(** A request as the client [c] builds it: the URL starts with the
    client's endpoint; a request that carries a file has the upload headers
    and the form field [file], every other request has the JSON headers. *)
Definition client_request (c : client) (rq : request) : Prop :=
  (exists path, rq_url rq = (api_endpoint c ++ path)%string) /\
  match rq_body rq with
  | Files field _ _ => field = "file" /\ rq_headers rq = upload_headers c
  | _ => rq_headers rq = headers c
  end.

(** [d.get(k) is not None] for a header list. *)
Fixpoint header (hdrs : list (string * string)) (k : string) : option string :=
  match hdrs with
  | [] => None
  | (k', v) :: r => if String.eqb k' k then Some v else header r k
  end.

(** The cached endpoint is absent or one of the listing candidates. *)
Definition cache_known (c : client) : Prop :=
  _knowledge_endpoint c = None \/
  exists e, In e list_endpoints /\ _knowledge_endpoint c = Some e.

(* ------------------------------------------------------------------ *)
(** *** Example directories and arguments *)

(** A directory [docs] with three regular files and one subdirectory, as
    two scans may list it. *)
Definition docs_fs (scan : list string) : Cli.filesystem :=
  Cli.mkFs (fun p => String.eqb p "docs")
           (fun p => String.eqb p "docs")
           (fun _ => scan)
           (fun _ => scan)
           (fun p => negb (String.eqb p "docs/sub")).

Definition docs_scan_1 : list string :=
  ["docs/b.txt"; "docs/sub"; "docs/a.md"; "docs/sub/c.pdf"].
Definition docs_scan_2 : list string :=
  ["docs/sub/c.pdf"; "docs/a.md"; "docs/sub"; "docs/b.txt"].

Definition demo_arguments : Cli.arguments :=
  Cli.mkArguments "http://h/" (Some "secret") "Docs" false "" "docs" true false.

(** String order as a relation. *)
Definition str_le (a b : string) : Prop := String.leb a b = true.

(* ------------------------------------------------------------------ *)
(** *** The shape of an upload answer *)

Definition is_object (v : json) : bool :=
  match v with JObj _ => true | _ => false end.

(** An upload answer [upload_file] can read: an object whose [meta] and
    [data] fields, when present, are objects. *)
Definition well_shaped_upload (j : json) : bool :=
  match j with
  | JObj kv =>
      is_object (dict_get kv "meta" (JObj [])) &&
      is_object (dict_get kv "data" (JObj []))
  | _ => false
  end.

(** The service of [demo_world], except that the first upload it receives
    is answered with [null_meta_upload]. *)
Definition first_upload_odd_service (h : list event) (rq : request) : outcome :=
  match rq_body rq with
  | Files _ _ _ =>
      if existsb is_upload_call h then service h rq
      else json_answer null_meta_upload
  | _ => service h rq
  end.

Definition first_upload_odd_world : world :=
  mkWorld first_upload_odd_service
          (fun _ p => negb (String.eqb p "gone.md"))
          (fun _ _ => true)
          str_of_id.

(* ------------------------------------------------------------------ *)
(** *** The string and path functions on concrete inputs *)

Example name_of_nested_path : PyPath.name "a/b/.DS_Store" = ".DS_Store".
Proof. reflexivity. Qed.

Example name_ignores_trailing_separator : PyPath.name "a//b.txt/" = "b.txt".
Proof. reflexivity. Qed.

Example name_of_root : PyPath.name "/" = "".
Proof. reflexivity. Qed.

Example suffix_is_last_extension : PyPath.suffix "a.tar.gz" = ".gz".
Proof. reflexivity. Qed.

Example suffix_of_dot_file : PyPath.suffix ".md" = "".
Proof. reflexivity. Qed.

Example suffix_of_trailing_dot : PyPath.suffix "foo." = "".
Proof. reflexivity. Qed.

Example suffix_keeps_case : PyPath.suffix "a.MD" = ".MD".
Proof. reflexivity. Qed.

Example basename_after_separator : PyPath.basename "a/b/" = "".
Proof. reflexivity. Qed.

Example replace_create : PyStr.replace "/create" "" "/api/v1/knowledges/create"
                         = "/api/v1/knowledges".
Proof. reflexivity. Qed.

Example replace_every_occurrence : PyStr.replace "aa" "b" "aaaaa" = "bba".
Proof. reflexivity. Qed.

Example rstrip_slashes : PyStr.rstrip "/" "http://x//" = "http://x".
Proof. reflexivity. Qed.

Example allowed_upper_case_extension : is_allowed_file "x/a.DocX" = true.
Proof. reflexivity. Qed.

Example system_file_any_case : is_allowed_file "x/Thumbs.DB" = false.
Proof. reflexivity. Qed.

Example dot_file_named_like_extension : is_allowed_file "notes/.txt" = false.
Proof. reflexivity. Qed.

Example html_content_type_any_case :
  is_html (mkResponse 200 (Some "Text/HTML; charset=utf-8") None) = true.
Proof. reflexivity. Qed.

(* ------------------------------------------------------------------ *)
(** *** Basic facts *)

Lemma request_result_ok o r : request_result o = Some r -> ok r = true.
Proof.
  destruct o as [|r0]; simpl; [discriminate|].
  unfold ok. destruct (http_error r0) eqn:E; [discriminate|].
  intros H; inversion H; subst. now rewrite E.
Qed.

Lemma responded_request_result o : responded (request_result o) = request_result o.
Proof.
  destruct (request_result o) as [r|] eqn:E; simpl; [|reflexivity].
  now rewrite (request_result_ok _ _ E).
Qed.

Lemma make_request_run w m endpoint hdrs b st :
  let rq := mkRequest m (api_endpoint (self st) ++ endpoint) hdrs b in
  let o := w_request w (trace st) rq in
  _make_request w m endpoint hdrs b st
  = (Ret (request_result o), emit (EvRequest rq o) st).
Proof.
  unfold _make_request, bind, get_self, send, ret; simpl.
  destruct (w_request w (trace st) _) as [|r]; simpl; [reflexivity|].
  destruct (http_error r); reflexivity.
Qed.

Lemma list_loop_cons w endpoint rest st :
  let rq := list_request (self st) endpoint in
  let o := w_request w (trace st) rq in
  let st1 := emit (EvRequest rq o) st in
  list_loop w (endpoint :: rest) st
  = match parsed o with
    | Some j => (Ret j, mkState (set_knowledge_endpoint (self st) endpoint) (trace st1))
    | None => list_loop w rest st1
    end.
Proof.
  cbn zeta. cbn [list_loop]. unfold bind at 1. unfold get_self at 1.
  unfold bind at 1. rewrite make_request_run. cbn zeta.
  rewrite responded_request_result. unfold parsed, list_request.
  destruct (request_result _) as [r|]; [|reflexivity].
  destruct (is_html r); [reflexivity|].
  destruct (json_body r); reflexivity.
Qed.

Lemma emit_self ev st : self (emit ev st) = self st.
Proof. reflexivity. Qed.

Lemma emit_trace ev st : trace (emit ev st) = trace st ++ [ev].
Proof. reflexivity. Qed.

(** No candidate yields JSON: every candidate is tried, the result is the
    empty list and the client is unchanged. *)
Lemma list_loop_exhausted w endpoints st :
  let evs := exchange w (trace st) (map (list_request (self st)) endpoints) in
  Forall (fun ev => parsed_ev ev = None) evs ->
  list_loop w endpoints st = (Ret (JArr []), mkState (self st) (trace st ++ evs)).
Proof.
  revert st. induction endpoints as [|e rest IH]; intros st; cbn zeta.
  - intros _. simpl. rewrite app_nil_r. now destruct st.
  - cbn [map exchange]. intros H. inversion H as [|ev evs Hev Hrest]; subst.
    rewrite list_loop_cons. cbn zeta. simpl in Hev. rewrite Hev.
    rewrite IH.
    + cbn [emit self trace]. now rewrite <- app_assoc.
    + exact Hrest.
Qed.

(** The first candidate that yields JSON, at position [k]: the loop stops
    there, returns its body and remembers its path. *)
Lemma list_loop_found w endpoints st k endpoint ev j :
  let evs := exchange w (trace st) (map (list_request (self st)) endpoints) in
  nth_error endpoints k = Some endpoint ->
  Forall (fun ev => parsed_ev ev = None) (firstn k evs) ->
  nth_error evs k = Some ev ->
  parsed_ev ev = Some j ->
  list_loop w endpoints st
  = (Ret j, mkState (set_knowledge_endpoint (self st) endpoint)
                    (trace st ++ firstn (S k) evs)).
Proof.
  revert st k. induction endpoints as [|e rest IH]; intros st k; cbn zeta.
  - destruct k; discriminate.
  - cbn [map exchange]. destruct k as [|k].
    + intros He _ Hev Hj. cbn in He, Hev. inversion He; inversion Hev; subst.
      rewrite list_loop_cons. cbn zeta. simpl in Hj. rewrite Hj. reflexivity.
    + intros He Hpre Hev Hj. cbn [nth_error] in He, Hev.
      cbn [firstn] in Hpre. inversion Hpre as [|x xs Hx Hxs]; subst.
      rewrite list_loop_cons. cbn zeta. simpl in Hx. rewrite Hx.
      rewrite (IH _ k); cbn [emit self trace]; try eassumption.
      cbn [firstn]. now rewrite <- app_assoc.
Qed.

Lemma list_loop_returns w endpoints st :
  exists j st', list_loop w endpoints st = (Ret j, st').
Proof.
  revert st. induction endpoints as [|e rest IH]; intros st.
  - simpl. unfold ret. eauto.
  - rewrite list_loop_cons. cbn zeta.
    destruct (parsed _); [eauto | apply IH].
Qed.

(** The three ways a candidate yields no JSON. *)
Lemma parsed_none_iff o :
  parsed o = None <->
  o = ConnError \/
  exists r, o = Answer r /\
            (http_error r = true \/ is_html r = true \/ json_body r = None).
Proof.
  unfold parsed. destruct o as [|r]; simpl.
  - split; auto.
  - split.
    + intros H. right. exists r. split; [reflexivity|].
      destruct (http_error r); [now left|].
      destruct (is_html r); [now (right; left)|]. now (right; right).
    + intros [H|[r' [E H]]]; [discriminate|]. inversion E; subst r'.
      destruct (http_error r); [reflexivity|].
      destruct (is_html r); [reflexivity|].
      destruct H as [H|[H|H]]; try discriminate. exact H.
Qed.

(* ================================================================== *)
(** ** Listing collections *)

(** C5. [list_knowledge_collections] never raises.  Let [tries] be the
    world's answers to GET requests for the three candidate paths in their
    fixed order.  When none of them yields JSON (each is a network or HTTP
    error, an HTML page or an unparsable body), all three are tried, the
    result is the empty list and the client is unchanged.  Otherwise, with
    [k] the first candidate that yields JSON, exactly the candidates up to
    [k] are tried, the result is the parsed body of candidate [k], and its
    path is remembered. *)
Theorem list_knowledge_collections_probes w st :
  let tries := exchange w (trace st)
                 (map (list_request (self st)) list_endpoints) in
  (exists j st', list_knowledge_collections w st = (Ret j, st')) /\
  (Forall (fun ev => parsed_ev ev = None) tries ->
   list_knowledge_collections w st
   = (Ret (JArr []), mkState (self st) (trace st ++ tries))) /\
  (forall k endpoint ev j,
     nth_error list_endpoints k = Some endpoint ->
     Forall (fun ev => parsed_ev ev = None) (firstn k tries) ->
     nth_error tries k = Some ev ->
     parsed_ev ev = Some j ->
     list_knowledge_collections w st
     = (Ret j, mkState (set_knowledge_endpoint (self st) endpoint)
                       (trace st ++ firstn (S k) tries))).
Proof.
  cbn zeta. unfold list_knowledge_collections. split; [|split].
  - apply list_loop_returns.
  - apply list_loop_exhausted.
  - intros k endpoint ev j. apply list_loop_found.
Qed.

Lemma list_knowledge_collections_probes_witness :
  list_knowledge_collections down_world demo_state
  = (Ret (JArr []),
     mkState demo_client
       [EvRequest (list_request demo_client "/api/v1/workspace/knowledge") ConnError;
        EvRequest (list_request demo_client "/api/v1/knowledges") ConnError;
        EvRequest (list_request demo_client "/api/v1/knowledge") ConnError]) /\
  list_knowledge_collections demo_world demo_state
  = (Ret docs_listing,
     mkState (set_knowledge_endpoint demo_client "/api/v1/knowledge")
       [EvRequest (list_request demo_client "/api/v1/workspace/knowledge") not_found;
        EvRequest (list_request demo_client "/api/v1/knowledges") html_page;
        EvRequest (list_request demo_client "/api/v1/knowledge")
                  (json_answer docs_listing)]).
Proof.
  split.
  - apply (proj1 (proj2 (list_knowledge_collections_probes down_world demo_state))).
    repeat constructor.
  - apply (proj2 (proj2 (list_knowledge_collections_probes demo_world demo_state))
             2%nat "/api/v1/knowledge"
             (EvRequest (list_request demo_client "/api/v1/knowledge")
                        (json_answer docs_listing))
             docs_listing).
    + reflexivity.
    + repeat constructor.
    + reflexivity.
    + reflexivity.
Defined.

(* ================================================================== *)
(** ** Creating a collection *)

Lemma create_loop_cons w payload endpoint rest st :
  let rq := create_request (self st) payload endpoint in
  let o := w_request w (trace st) rq in
  let st1 := emit (EvRequest rq o) st in
  create_loop w payload (endpoint :: rest) st
  = match parsed o with
    | Some j =>
        match py_get j "id" JNull with
        | Ret v =>
            (Ret v,
             mkState (if discovered (self st) then self st
                      else set_knowledge_endpoint (self st)
                             (PyStr.replace "/create" "" endpoint))
                     (trace st1))
        | Raise e => (Raise e, st1)
        end
    | None => create_loop w payload rest st1
    end.
Proof.
  cbn zeta. cbn [create_loop]. unfold bind at 1. unfold get_self at 1.
  unfold bind at 1. rewrite make_request_run. cbn zeta.
  rewrite responded_request_result. unfold parsed, create_request.
  destruct (request_result _) as [r|]; [|reflexivity].
  destruct (is_html r); [reflexivity|].
  destruct (json_body r) as [j|]; [|reflexivity].
  unfold bind, lift, get_self, ret, put_endpoint.
  destruct (py_get j "id" JNull) as [v|e]; [|reflexivity].
  cbn [emit self trace].
  destruct (discovered (self st)); destruct st; reflexivity.
Qed.

Lemma create_loop_found w payload endpoints st k endpoint ev j v :
  let evs := exchange w (trace st)
               (map (create_request (self st) payload) endpoints) in
  nth_error endpoints k = Some endpoint ->
  Forall (fun ev => parsed_ev ev = None) (firstn k evs) ->
  nth_error evs k = Some ev ->
  parsed_ev ev = Some j ->
  py_get j "id" JNull = Ret v ->
  create_loop w payload endpoints st
  = (Ret v,
     mkState (if discovered (self st) then self st
              else set_knowledge_endpoint (self st)
                     (PyStr.replace "/create" "" endpoint))
             (trace st ++ firstn (S k) evs)).
Proof.
  revert st k. induction endpoints as [|e rest IH]; intros st k; cbn zeta.
  - destruct k; discriminate.
  - cbn [map exchange]. destruct k as [|k].
    + intros He _ Hev Hj Hv. cbn in He, Hev. inversion He; inversion Hev; subst.
      rewrite create_loop_cons. cbn zeta. simpl in Hj. rewrite Hj, Hv. reflexivity.
    + intros He Hpre Hev Hj Hv. cbn [nth_error] in He, Hev.
      cbn [firstn] in Hpre. inversion Hpre as [|x xs Hx Hxs]; subst.
      rewrite create_loop_cons. cbn zeta. simpl in Hx. rewrite Hx.
      rewrite (IH _ k); cbn [emit self trace]; try eassumption.
      cbn [firstn]. now rewrite <- app_assoc.
Qed.

Lemma create_loop_exhausted w payload endpoints st :
  let evs := exchange w (trace st)
               (map (create_request (self st) payload) endpoints) in
  Forall (fun ev => parsed_ev ev = None) evs ->
  create_loop w payload endpoints st = (Ret JNull, mkState (self st) (trace st ++ evs)).
Proof.
  revert st. induction endpoints as [|e rest IH]; intros st; cbn zeta.
  - intros _. simpl. rewrite app_nil_r. now destruct st.
  - cbn [map exchange]. intros H. inversion H as [|ev evs Hev Hrest]; subst.
    rewrite create_loop_cons. cbn zeta. simpl in Hev. rewrite Hev.
    rewrite IH.
    + cbn [emit self trace]. now rewrite <- app_assoc.
    + exact Hrest.
Qed.

(** Every run of the loop only adds to the trace. *)
Lemma create_loop_extends w payload endpoints st :
  exists more, trace (snd (create_loop w payload endpoints st)) = trace st ++ more.
Proof.
  revert st. induction endpoints as [|e rest IH]; intros st.
  - exists []. simpl. now rewrite app_nil_r.
  - rewrite create_loop_cons. cbn zeta.
    destruct (parsed _) as [j|].
    + destruct (py_get j "id" JNull); cbn [snd trace emit]; eauto.
    + destruct (IH (emit (EvRequest (create_request (self st) payload e)
                            (w_request w (trace st)
                               (create_request (self st) payload e))) st))
        as [more H].
      rewrite H. cbn [emit trace]. rewrite <- app_assoc. eauto.
Qed.

(** The base of each fixed create candidate is the candidate minus its
    [/create] suffix. *)
Lemma create_candidate_base c endpoint :
  discovered c = false ->
  In endpoint (create_endpoints c) ->
  In (PyStr.replace "/create" "" endpoint) list_endpoints /\
  (PyStr.replace "/create" "" endpoint ++ "/create")%string = endpoint.
Proof.
  intros Hd. unfold create_endpoints.
  replace (match _knowledge_endpoint c with
           | Some e => if discovered c then e else "/api/v1/workspace/knowledge"
           | None => "/api/v1/workspace/knowledge"
           end) with "/api/v1/workspace/knowledge"
    by (rewrite Hd; now destruct (_knowledge_endpoint c)).
  intros [H|[H|[H|[H|[]]]]]; subst endpoint; vm_compute; auto.
Qed.

(** C6, as the code has it.  When [create_knowledge_collection] succeeds via
    candidate [k] (the earlier candidates yield no JSON, candidate [k]
    answers a JSON object), it returns that object's [id] after exactly the
    requests up to [k]; it caches the candidate's base (the path minus its
    [/create] suffix) when no endpoint was discovered before, and leaves an
    already discovered endpoint as it is.  A discovered endpoint is the base
    of the first create attempt. *)
Theorem create_caches_base_unless_discovered w name description st :
  let c := self st in
  let payload := create_payload name description in
  let tries := exchange w (trace st)
                 (map (create_request c payload) (create_endpoints c)) in
  (forall k endpoint ev j v,
     nth_error (create_endpoints c) k = Some endpoint ->
     Forall (fun ev => parsed_ev ev = None) (firstn k tries) ->
     nth_error tries k = Some ev ->
     parsed_ev ev = Some j ->
     py_get j "id" JNull = Ret v ->
     create_knowledge_collection w name description st
     = (Ret v,
        mkState (if discovered c then c
                 else set_knowledge_endpoint c (PyStr.replace "/create" "" endpoint))
                (trace st ++ firstn (S k) tries)) /\
     (discovered c = false ->
      (PyStr.replace "/create" "" endpoint ++ "/create")%string = endpoint)) /\
  (forall base,
     _knowledge_endpoint c = Some base ->
     discovered c = true ->
     exists o more,
       trace (snd (create_knowledge_collection w name description st))
       = trace st
         ++ EvRequest (create_request c payload (base ++ "/create")) o :: more).
Proof.
  cbn zeta. split.
  - intros k endpoint ev j v He Hpre Hev Hj Hv. split.
    + unfold create_knowledge_collection, bind, get_self.
      now apply (create_loop_found w _ _ st k endpoint ev j v).
    + intros Hd. apply (create_candidate_base (self st)); [exact Hd|].
      eapply nth_error_In; eassumption.
  - intros base Hb Hd.
    unfold create_knowledge_collection, bind, get_self.
    unfold create_endpoints. rewrite Hb, Hd.
    rewrite create_loop_cons. cbn zeta.
    set (rq := create_request (self st) _ _).
    set (o := w_request w (trace st) rq).
    exists o.
    destruct (parsed o) as [j|].
    + destruct (py_get j "id" JNull); cbn [snd trace emit]; exists []; reflexivity.
    + destruct (create_loop_extends w (create_payload name description)
                  ["/api/v1/workspace/knowledge/create";
                   "/api/v1/knowledges/create"; "/api/v1/knowledge/create"]
                  (emit (EvRequest rq o) st)) as [more H].
      exists more. unfold create_payload in *. rewrite H. cbn [emit trace].
      now rewrite <- app_assoc.
Qed.

Lemma create_caches_base_unless_discovered_witness :
  (* nothing discovered: the base of the successful candidate is cached *)
  create_knowledge_collection demo_world "new" "" demo_state
  = (Ret (JStr "k9"),
     mkState (set_knowledge_endpoint demo_client "/api/v1/workspace/knowledge")
       [EvRequest (create_request demo_client (create_payload "new" "")
                     "/api/v1/workspace/knowledge/create")
                  (json_answer (JObj [("id", JStr "k9"); ("name", JStr "new")]))]) /\
  (* [/api/v1/knowledge] discovered: it is tried first and stays cached *)
  (exists o more,
     trace (snd (create_knowledge_collection demo_world "new" "" demo_state_discovered))
     = trace demo_state_discovered
       ++ EvRequest (create_request (self demo_state_discovered)
                       (create_payload "new" "") "/api/v1/knowledge/create") o
          :: more).
Proof.
  split.
  - apply (proj1 (create_caches_base_unless_discovered demo_world "new" "" demo_state)
             0%nat "/api/v1/workspace/knowledge/create"
             (EvRequest (create_request demo_client (create_payload "new" "")
                           "/api/v1/workspace/knowledge/create")
                (json_answer (JObj [("id", JStr "k9"); ("name", JStr "new")])))
             (JObj [("id", JStr "k9"); ("name", JStr "new")]) (JStr "k9"));
      try reflexivity.
    constructor.
  - apply (proj2 (create_caches_base_unless_discovered demo_world "new" ""
                    demo_state_discovered) "/api/v1/knowledge"); reflexivity.
Defined.

(** C6 as worded fails: with [/api/v1/knowledge] discovered by a lookup, a
    create that succeeds via [/api/v1/workspace/knowledge/create] leaves
    [/api/v1/knowledge] cached. *)
Lemma create_keeps_discovered_endpoint :
  ~ caches_base_of_success demo_world "new" "" demo_state_discovered.
Proof.
  intros H.
  specialize (H 1%nat "/api/v1/workspace/knowledge/create"
                (EvRequest (create_request (self demo_state_discovered)
                              (create_payload "new" "")
                              "/api/v1/workspace/knowledge/create")
                   (json_answer (JObj [("id", JStr "k9"); ("name", JStr "new")])))
                (JObj [("id", JStr "k9"); ("name", JStr "new")]) (JStr "k9")
                eq_refl).
  vm_compute in H.
  assert (Hpre : Forall (fun ev => parsed_ev ev = None)
                   (firstn 1 (exchange demo_world (trace demo_state_discovered)
                      (map (create_request (self demo_state_discovered)
                              (create_payload "new" ""))
                           (create_endpoints (self demo_state_discovered))))))
    by (repeat constructor).
  vm_compute in Hpre.
  specialize (H Hpre eq_refl eq_refl eq_refl).
  discriminate H.
Qed.

(* ================================================================== *)
(** ** Linking a file to a collection *)

Lemma add_loop_cons w knowledge_id payload retries retry_delay attempt rest st :
  let rq := mkRequest POST (api_endpoint (self st) ++ link_endpoint w knowledge_id)
                      (headers (self st)) (Json payload) in
  let o := w_request w (trace st) rq in
  let st1 := emit (EvRequest rq o) st in
  add_loop w knowledge_id payload retries retry_delay (attempt :: rest) st
  = match request_result o with
    | Some _ => (Ret true, st1)
    | None =>
        add_loop w knowledge_id payload retries retry_delay rest
          (if (attempt <? retries - 1)%Z then emit (EvSleep retry_delay) st1 else st1)
    end.
Proof.
  cbn zeta. cbn [add_loop]. unfold bind at 1. unfold get_self at 1.
  unfold bind at 1. rewrite make_request_run. cbn zeta.
  rewrite responded_request_result.
  destruct (request_result _) as [r|]; [reflexivity|].
  unfold bind. destruct (attempt <? retries - 1)%Z; reflexivity.
Qed.

Lemma attempts_app t1 t2 : attempts (t1 ++ t2) = (attempts t1 + attempts t2)%nat.
Proof. unfold attempts. now rewrite filter_app, length_app. Qed.

Lemma add_loop_trace w knowledge_id payload retries retry_delay todo st :
  let rq := mkRequest POST (api_endpoint (self st) ++ link_endpoint w knowledge_id)
                      (headers (self st)) (Json payload) in
  exists linked more,
    add_loop w knowledge_id payload retries retry_delay todo st
    = (Ret linked, mkState (self st) (trace st ++ more)) /\
    Forall (link_event rq retry_delay) more /\
    (attempts more <= List.length todo)%nat.
Proof.
  revert st. induction todo as [|a rest IH]; intros st; cbn zeta.
  - exists false, []. simpl. rewrite app_nil_r. destruct st.
    repeat split; auto.
  - rewrite add_loop_cons. cbn zeta.
    set (rq := mkRequest POST _ _ _).
    set (o := w_request w (trace st) rq).
    destruct (request_result o).
    + exists true, [EvRequest rq o]. repeat split.
      * repeat constructor.
      * cbn. lia.
    + destruct (a <? retries - 1)%Z.
      * destruct (IH (emit (EvSleep retry_delay) (emit (EvRequest rq o) st)))
          as (b & more & Hrun & Hall & Hn).
        exists b, (EvRequest rq o :: EvSleep retry_delay :: more).
        rewrite Hrun. cbn [emit self trace]. repeat split.
        -- now rewrite <- !app_assoc.
        -- constructor; [reflexivity|]. constructor; [reflexivity|]. exact Hall.
        -- change (attempts (EvRequest rq o :: EvSleep retry_delay :: more))
             with (S (attempts more)). cbn [List.length]. lia.
      * destruct (IH (emit (EvRequest rq o) st)) as (b & more & Hrun & Hall & Hn).
        exists b, (EvRequest rq o :: more).
        rewrite Hrun. cbn [emit self trace]. repeat split.
        -- now rewrite <- !app_assoc.
        -- constructor; [reflexivity|]. exact Hall.
        -- change (attempts (EvRequest rq o :: more)) with (S (attempts more)).
           cbn [List.length]. lia.
Qed.

Lemma length_range n : List.length (range n) = Z.to_nat n.
Proof. unfold range. now rewrite length_map, length_seq. Qed.

(** A run of [add_file_to_knowledge] returns, keeps the client and checks
    no local path. *)
Lemma add_file_returns w knowledge_id file_id retries retry_delay st :
  exists linked more,
    add_file_to_knowledge w knowledge_id file_id retries retry_delay st
    = (Ret linked, mkState (self st) (trace st ++ more)) /\
    checked_paths more = [].
Proof.
  unfold add_file_to_knowledge.
  destruct (add_loop_trace w knowledge_id (JObj [("file_id", file_id)])
              retries retry_delay (range retries) st)
    as (b & more & Hrun & Hall & _).
  exists b, more. split; [exact Hrun|].
  clear Hrun. induction Hall as [|ev more Hev _ IH]; [reflexivity|].
  destruct ev; simpl in *; tauto.
Qed.

(** C1. Every request [add_file_to_knowledge] sends is the POST to
    [/api/v1/knowledge/{knowledge_id}/file/add] whose JSON body is the
    one-key object [{"file_id": file_id}]: its only key is [file_id], so no
    metadata key is ever present.  The call returns a boolean and does
    nothing but send this request and wait. *)
Theorem link_payload_is_file_id_only w knowledge_id file_id retries retry_delay st :
  exists linked more,
    add_file_to_knowledge w knowledge_id file_id retries retry_delay st
    = (Ret linked, mkState (self st) (trace st ++ more)) /\
    Forall (link_event (link_request w (self st) knowledge_id file_id) retry_delay)
           more /\
    forall rq o, In (EvRequest rq o) more ->
      rq_method rq = POST /\
      rq_url rq = (api_endpoint (self st) ++ "/api/v1/knowledge/"
                   ++ w_str w knowledge_id ++ "/file/add")%string /\
      rq_body rq = Json (JObj [("file_id", file_id)]) /\
      payload_keys (rq_body rq) = ["file_id"].
Proof.
  unfold add_file_to_knowledge.
  destruct (add_loop_trace w knowledge_id (JObj [("file_id", file_id)])
              retries retry_delay (range retries) st)
    as (b & more & Hrun & Hall & _).
  exists b, more. split; [exact Hrun|]. split; [exact Hall|].
  intros rq o Hin. rewrite Forall_forall in Hall.
  specialize (Hall _ Hin). simpl in Hall. subst rq.
  repeat split.
Qed.

(** C4. With [retries = 3] and a link request that fails on each of its
    three attempts, [add_file_to_knowledge] sends the request exactly three
    times, waits [retry_delay] after the first and after the second attempt
    and not after the third, and returns [False].  For every [retries], the
    number of attempts is at most [retries] (none when [retries <= 0]). *)
Theorem link_retries_bounded w knowledge_id file_id retry_delay st :
  (let rq := link_request w (self st) knowledge_id file_id in
   let o1 := w_request w (trace st) rq in
   let h1 := trace st ++ [EvRequest rq o1; EvSleep retry_delay] in
   let o2 := w_request w h1 rq in
   let h2 := h1 ++ [EvRequest rq o2; EvSleep retry_delay] in
   let o3 := w_request w h2 rq in
   request_result o1 = None ->
   request_result o2 = None ->
   request_result o3 = None ->
   add_file_to_knowledge w knowledge_id file_id 3 retry_delay st
   = (Ret false, mkState (self st) (h2 ++ [EvRequest rq o3])) /\
   attempts [EvRequest rq o1; EvSleep retry_delay;
             EvRequest rq o2; EvSleep retry_delay; EvRequest rq o3] = 3%nat) /\
  (forall retries,
   exists linked more,
     add_file_to_knowledge w knowledge_id file_id retries retry_delay st
     = (Ret linked, mkState (self st) (trace st ++ more)) /\
     (attempts more <= Z.to_nat retries)%nat /\
     (0 <= retries -> Z.of_nat (attempts more) <= retries)%Z).
Proof.
  split.
  - cbn zeta. intros H1 H2 H3. split; [|reflexivity].
    rewrite <- ?app_assoc in H3. cbn [app] in H3.
    unfold add_file_to_knowledge. change (range 3) with [0%Z; 1%Z; 2%Z].
    rewrite add_loop_cons. cbn zeta.
    change (mkRequest POST _ _ _) with (link_request w (self st) knowledge_id file_id).
    rewrite H1. change (0 <? 3 - 1)%Z with true. cbv iota.
    rewrite add_loop_cons. cbn zeta. cbn [emit self trace].
    change (mkRequest POST _ _ _) with (link_request w (self st) knowledge_id file_id).
    rewrite <- !app_assoc. cbn [app].
    rewrite H2. change (1 <? 3 - 1)%Z with true. cbv iota.
    rewrite add_loop_cons. cbn zeta. cbn [emit self trace].
    change (mkRequest POST _ _ _) with (link_request w (self st) knowledge_id file_id).
    rewrite <- !app_assoc. cbn [app].
    rewrite H3. change (2 <? 3 - 1)%Z with false. cbv iota.
    cbn [add_loop]. unfold ret, emit. cbn [self trace].
    rewrite <- ?app_assoc. cbn [app]. reflexivity.
  - intros retries. unfold add_file_to_knowledge.
    destruct (add_loop_trace w knowledge_id (JObj [("file_id", file_id)])
                retries retry_delay (range retries) st)
      as (b & more & Hrun & _ & Hn).
    rewrite length_range in Hn.
    exists b, more. split; [exact Hrun|]. split; [exact Hn|]. lia.
Qed.

Lemma link_retries_bounded_witness :
  add_file_to_knowledge down_world (JStr "k1") (JStr "f1") 3 5 demo_state
  = (Ret false,
     mkState demo_client
       [EvRequest (link_request down_world demo_client (JStr "k1") (JStr "f1")) ConnError;
        EvSleep 5;
        EvRequest (link_request down_world demo_client (JStr "k1") (JStr "f1")) ConnError;
        EvSleep 5;
        EvRequest (link_request down_world demo_client (JStr "k1") (JStr "f1")) ConnError]).
Proof.
  apply (proj1 (link_retries_bounded down_world (JStr "k1") (JStr "f1") 5 demo_state));
    reflexivity.
Defined.

(* ================================================================== *)
(** ** The allow-list and the upload of one file *)

Lemma same_letter_lower a b : same_letter a b -> PyStr.lower_ascii a = PyStr.lower_ascii b.
Proof.
  intros [H|[H|H]]; subst; [reflexivity| |];
    [destruct a as [[] [] [] [] [] [] [] []] | destruct b as [[] [] [] [] [] [] [] []]];
    reflexivity.
Qed.

Lemma lower_same_letter a : same_letter a (PyStr.lower_ascii a).
Proof.
  destruct a as [[] [] [] [] [] [] [] []];
    solve [left; reflexivity | right; right; reflexivity].
Qed.

Lemma same_ignoring_case_lower s t :
  same_ignoring_case s t -> PyStr.lower s = PyStr.lower t.
Proof.
  revert t. induction s as [|a s IH]; intros [|b t]; simpl; try tauto.
  intros [Hab Hst]. now rewrite (same_letter_lower _ _ Hab), (IH _ Hst).
Qed.

Lemma lower_same_ignoring_case s : same_ignoring_case s (PyStr.lower s).
Proof.
  induction s as [|a s IH]; simpl; [exact I|].
  split; [apply lower_same_letter | exact IH].
Qed.

Lemma mem_In s l : PyStr.mem s l = true <-> In s l.
Proof.
  unfold PyStr.mem. rewrite existsb_exists. split.
  - intros [x [Hin Heq]]. apply String.eqb_eq in Heq. now subst.
  - intros Hin. exists s. split; [exact Hin | apply String.eqb_refl].
Qed.

Lemma excluded_not_allowed file_path :
  system_file file_path \/ extension_outside file_path ->
  is_allowed_file file_path = false.
Proof.
  unfold is_allowed_file. intros [[H|H]|H].
  - apply same_ignoring_case_lower in H. rewrite H. reflexivity.
  - apply same_ignoring_case_lower in H. rewrite H. reflexivity.
  - destruct (PyStr.mem (PyStr.lower (PyPath.name file_path)) system_files);
      [reflexivity|].
    destruct (PyStr.mem (PyStr.lower (PyPath.suffix file_path)) allowed_extensions)
      eqn:E; [|reflexivity].
    apply mem_In in E. exfalso. apply (H _ E). apply lower_same_ignoring_case.
Qed.

Lemma upload_file_run w file_path st :
  let found := w_isfile w (trace st) file_path in
  let st1 := emit (EvIsFile file_path found) st in
  let opened := w_open w (trace st1) file_path in
  let st2 := emit (EvOpen file_path opened) st1 in
  let rq := upload_request (self st) file_path in
  let o := w_request w (trace st2) rq in
  let st3 := emit (EvRequest rq o) st2 in
  upload_file w file_path st
  = if negb found then (Ret JNull, st1)
    else if negb (is_allowed_file file_path) then (Ret JNull, st1)
    else if negb opened then (Ret JNull, st2)
    else match request_result o with
         | Some r =>
             match json_body r with
             | Some j =>
                 match py_get j "id" JNull, upload_log_fields j with
                 | Ret file_id, Ret _ => (Ret file_id, st3)
                 | Raise e, _ => (Raise e, st3)
                 | Ret _, Raise e => (Raise e, st3)
                 end
             | None => (Ret JNull, st3)
             end
         | None => (Ret JNull, st3)
         end.
Proof.
  cbn zeta. unfold upload_file. unfold bind at 1. unfold isfile at 1.
  destruct (negb (w_isfile w (trace st) file_path)); [reflexivity|].
  destruct (negb (is_allowed_file file_path)); [reflexivity|].
  unfold bind at 1. unfold open_rb at 1.
  destruct (negb (w_open w _ file_path)); [reflexivity|].
  unfold bind at 1. unfold get_self at 1. unfold bind at 1.
  rewrite make_request_run. cbn zeta. rewrite responded_request_result.
  cbn [emit self trace]. unfold upload_request.
  destruct (request_result _) as [r|]; [|reflexivity].
  destruct (json_body r) as [j|]; [|reflexivity].
  unfold bind, lift, ret.
  destruct (py_get j "id" JNull); [|reflexivity].
  destruct (upload_log_fields j); reflexivity.
Qed.

Lemma upload_loop_cons w knowledge_id file_path rest results st :
  upload_loop w knowledge_id (file_path :: rest) results st
  = match upload_file w file_path st with
    | (Ret file_id, st1) =>
        if truthy file_id then
          match add_file_to_knowledge w knowledge_id file_id
                  default_retries default_retry_delay
                  (emit (EvSleep settle_delay) st1) with
          | (Ret true, st2) =>
              upload_loop w knowledge_id rest (count_success results) st2
          | (Ret false, st2) =>
              upload_loop w knowledge_id rest
                (count_failure results
                   ("Failed to add " ++ file_path ++ " to knowledge collection")) st2
          | (Raise e, st2) => (Raise e, st2)
          end
        else upload_loop w knowledge_id rest
               (count_failure results ("Failed to upload " ++ file_path)) st1
    | (Raise e, st1) => (Raise e, st1)
    end.
Proof.
  cbn [upload_loop]. unfold bind at 1.
  destruct (upload_file w file_path st) as [[file_id|e] st1]; [|reflexivity].
  destruct (truthy file_id); [|reflexivity].
  unfold bind at 1. unfold sleep at 1. unfold bind at 1.
  destruct (add_file_to_knowledge _ _ _ _ _ _) as [[[|]|e] st2]; reflexivity.
Qed.

(* ================================================================== *)
(** ** The batch loop *)

Lemma checked_paths_app t1 t2 :
  checked_paths (t1 ++ t2) = checked_paths t1 ++ checked_paths t2.
Proof.
  induction t1 as [|ev t1 IH]; [reflexivity|].
  destruct ev; simpl; now rewrite IH.
Qed.

Lemma link_events_check_nothing rq d more :
  Forall (link_event rq d) more -> checked_paths more = [].
Proof.
  induction 1 as [|ev more Hev _ IH]; [reflexivity|].
  destruct ev; simpl in *; tauto.
Qed.

(** [upload_file] checks its path first, and no other path. *)
Lemma upload_file_trace w file_path st :
  exists more,
    snd (upload_file w file_path st) = mkState (self st) (trace st ++ more) /\
    checked_paths more = [file_path].
Proof.
  rewrite upload_file_run. cbn zeta.
  set (found := w_isfile w (trace st) file_path).
  set (e1 := EvIsFile file_path found).
  set (opened := w_open w _ file_path).
  set (e2 := EvOpen file_path opened).
  set (o := w_request w _ _).
  set (e3 := EvRequest _ o).
  assert (H1 : exists more, emit e1 st = mkState (self st) (trace st ++ more)
                            /\ checked_paths more = [file_path])
    by (exists [e1]; split; reflexivity).
  assert (H2 : exists more, emit e2 (emit e1 st) = mkState (self st) (trace st ++ more)
                            /\ checked_paths more = [file_path])
    by (exists [e1; e2]; split; [unfold emit; simpl; now rewrite <- app_assoc
                                | reflexivity]).
  assert (H3 : exists more, emit e3 (emit e2 (emit e1 st))
                            = mkState (self st) (trace st ++ more)
                            /\ checked_paths more = [file_path])
    by (exists [e1; e2; e3]; split; [unfold emit; simpl; now rewrite <- !app_assoc
                                    | reflexivity]).
  destruct (negb found); [exact H1|].
  destruct (negb (is_allowed_file file_path)); [exact H1|].
  destruct (negb opened); [exact H2|].
  destruct (request_result o) as [r|]; [|exact H3].
  destruct (json_body r) as [j|]; [|exact H3].
  destruct (py_get j "id" JNull); [|exact H3].
  destruct (upload_log_fields j); exact H3.
Qed.

Lemma upload_file_returns w file_path st :
  upload_answers_well_formed w ->
  exists file_id st1, upload_file w file_path st = (Ret file_id, st1).
Proof.
  intros WF. rewrite upload_file_run. cbn zeta.
  destruct (negb _); [eauto|].
  destruct (negb (is_allowed_file file_path)); [eauto|].
  destruct (negb _); [eauto|].
  set (rq := upload_request (self st) file_path).
  set (o := w_request w _ rq).
  destruct o as [|r] eqn:Eo; simpl; [eauto|].
  destruct (http_error r); [eauto|].
  destruct (json_body r) as [j|] eqn:Ej; [|eauto].
  destruct (WF _ rq r j _ _ _ eq_refl Eo Ej) as [[v Hv] Hlog].
  rewrite Hv, Hlog. eauto.
Qed.

(** The loop and the per-file state machine agree. *)
Lemma upload_loop_fates w knowledge_id file_paths results st :
  upload_loop w knowledge_id file_paths results st
  = match fates w knowledge_id file_paths st with
    | (Ret fs, st') => (Ret (tally results file_paths fs), st')
    | (Raise e, st') => (Raise e, st')
    end.
Proof.
  revert results st. induction file_paths as [|p rest IH]; intros results st.
  - reflexivity.
  - rewrite upload_loop_cons. cbn [fates]. unfold bind at 1. unfold process.
    unfold bind at 1.
    destruct (upload_file w p st) as [[file_id|e] st1]; [|reflexivity].
    destruct (truthy file_id).
    + unfold bind at 1. unfold sleep at 1. unfold bind at 1.
      destruct (add_file_to_knowledge _ _ _ _ _ _) as [[[|]|e] st2];
        [| |reflexivity]; unfold ret at 1; rewrite IH; unfold bind;
        destruct (fates w knowledge_id rest st2) as [[fs|e] st3]; reflexivity.
    + unfold ret at 1. rewrite IH. unfold bind.
      destruct (fates w knowledge_id rest st1) as [[fs|e] st3]; reflexivity.
Qed.

Lemma fates_length w knowledge_id file_paths st fs st' :
  fates w knowledge_id file_paths st = (Ret fs, st') ->
  List.length fs = List.length file_paths.
Proof.
  revert st fs. induction file_paths as [|p rest IH]; intros st fs.
  - simpl. unfold ret. intros H; inversion H. reflexivity.
  - cbn [fates]. unfold bind at 1.
    destruct (process w knowledge_id p st) as [[f|e] st1]; [|discriminate].
    unfold bind. destruct (fates w knowledge_id rest st1) as [[fs'|e] st2] eqn:E;
      [|discriminate].
    unfold ret. intros H; inversion H; subst. simpl. f_equal. eapply IH; eassumption.
Qed.

(** Counting: every file adds one to [success] or to [failed], and every
    failure adds one message. *)
Lemma tally_counts results file_paths fs :
  List.length fs = List.length file_paths ->
  let r := tally results file_paths fs in
  total r = total results /\
  (success r + failed r = success results + failed results + len file_paths)%Z /\
  exists more, errors r = errors results ++ more /\
               (failed r = failed results + len more)%Z.
Proof.
  revert results fs. induction file_paths as [|p rest IH]; intros results fs Hlen.
  - destruct fs; [|discriminate]. cbn. repeat split; try lia.
    exists []. rewrite app_nil_r. split; [reflexivity|cbn; lia].
  - destruct fs as [|f fs]; [discriminate|]. cbn [tally].
    destruct (IH (record_fate results p f) fs) as (Ht & Hs & more & He & Hf).
    { simpl in Hlen. lia. }
    cbn zeta. rewrite Ht, Hs, He, Hf. unfold len in *. cbn [List.length].
    destruct f; cbn [record_fate count_success count_failure total success failed errors].
    + repeat split; try lia. exists more. split; [reflexivity|lia].
    + repeat split; try lia. exists (("Failed to upload " ++ p)%string :: more).
      rewrite <- app_assoc. split; [reflexivity|]. cbn [List.length]. lia.
    + repeat split; try lia.
      exists (("Failed to add " ++ p ++ " to knowledge collection")%string :: more).
      rewrite <- app_assoc. split; [reflexivity|]. cbn [List.length]. lia.
Qed.

Lemma upload_loop_grows w knowledge_id file_paths results st r st' :
  upload_loop w knowledge_id file_paths results st = (Ret r, st') ->
  total r = total results /\
  (success r + failed r = success results + failed results + len file_paths)%Z /\
  (failed results <= failed r)%Z /\
  exists more, errors r = errors results ++ more /\
               (failed r = failed results + len more)%Z.
Proof.
  rewrite upload_loop_fates.
  destruct (fates w knowledge_id file_paths st) as [[fs|e] st1] eqn:E; [|discriminate].
  intros H; inversion H; subst.
  destruct (tally_counts results file_paths fs (fates_length _ _ _ _ _ _ E))
    as (Ht & Hs & more & He & Hf).
  repeat split; try assumption.
  - rewrite Hf. unfold len. lia.
  - exists more. now split.
Qed.

Lemma upload_files_to_knowledge_run w knowledge_name file_paths create_if_missing
    description st :
  let start := mkBatch 0 0 (len file_paths) [] in
  upload_files_to_knowledge w knowledge_name file_paths create_if_missing description st
  = match get_knowledge_collection_id w knowledge_name st with
    | (Raise e, st1) => (Raise e, st1)
    | (Ret found_id, st1) =>
        if truthy found_id then upload_loop w found_id file_paths start st1
        else if create_if_missing then
          match create_knowledge_collection w knowledge_name description st1 with
          | (Raise e, st2) => (Raise e, st2)
          | (Ret created_id, st2) =>
              if truthy created_id then upload_loop w created_id file_paths start st2
              else (Ret (all_failed file_paths
                           ("Failed to create knowledge collection '"
                            ++ knowledge_name ++ "'")), st2)
          end
        else (Ret (all_failed file_paths
                     ("Knowledge collection '" ++ knowledge_name ++ "' not found")),
              st1)
    end.
Proof.
  cbn zeta. unfold upload_files_to_knowledge. unfold bind at 1.
  destruct (get_knowledge_collection_id w knowledge_name st) as [[found_id|e] st1];
    [|reflexivity].
  destruct (truthy found_id); cbn [negb]; [reflexivity|].
  destruct create_if_missing; [|reflexivity].
  unfold bind.
  destruct (create_knowledge_collection w knowledge_name description st1)
    as [[created_id|e] st2]; [|reflexivity].
  destruct (truthy created_id); reflexivity.
Qed.

(** C3. A path whose file name is [.DS_Store] or [Thumbs.db] in any letter
    case, or whose extension is none of [.md .txt .pdf .doc .docx] in any
    letter case, is turned away by [upload_file]: the result is [None] and
    the only interaction is the [os.path.isfile] check, so no request is
    sent.  In a batch the loop goes on to the next file with [failed]
    incremented and the message [Failed to upload <path>] appended, and the
    message is in the errors of every result the batch returns. *)
Theorem excluded_file_is_skipped w file_path st :
  system_file file_path \/ extension_outside file_path ->
  let found := w_isfile w (trace st) file_path in
  let st1 := emit (EvIsFile file_path found) st in
  upload_file w file_path st = (Ret JNull, st1) /\
  attempts (trace st1) = attempts (trace st) /\
  (forall knowledge_id rest results,
     upload_loop w knowledge_id (file_path :: rest) results st
     = upload_loop w knowledge_id rest
         (count_failure results ("Failed to upload " ++ file_path)) st1) /\
  (forall knowledge_id before after results st0 r st',
     upload_loop w knowledge_id (before ++ file_path :: after) results st0
     = (Ret r, st') ->
     In ("Failed to upload " ++ file_path)%string (errors r) /\
     (failed results + 1 <= failed r)%Z).
Proof.
  intros Hex. apply excluded_not_allowed in Hex. cbn zeta.
  assert (Hup : forall s, upload_file w file_path s
                          = (Ret JNull, emit (EvIsFile file_path
                                                (w_isfile w (trace s) file_path)) s)).
  { intros s. rewrite upload_file_run. cbn zeta. rewrite Hex.
    now destruct (negb (w_isfile w (trace s) file_path)). }
  assert (Hstep : forall s knowledge_id rest results,
            upload_loop w knowledge_id (file_path :: rest) results s
            = upload_loop w knowledge_id rest
                (count_failure results ("Failed to upload " ++ file_path))
                (emit (EvIsFile file_path (w_isfile w (trace s) file_path)) s)).
  { intros. rewrite upload_loop_cons, Hup. reflexivity. }
  split; [apply Hup|]. split; [|split; [apply Hstep|]].
  - cbn [emit trace]. rewrite attempts_app. cbn. lia.
  - intros knowledge_id before. induction before as [|p before IH];
      intros after results st0 r st'.
    + cbn [app]. rewrite Hstep. intros Hrun.
      apply upload_loop_grows in Hrun.
      destruct Hrun as (_ & _ & Hle & more & He & _).
      cbn [count_failure errors failed] in *. split; [|exact Hle].
      rewrite He. apply in_or_app. left. apply in_or_app. right. now left.
    + cbn [app]. rewrite upload_loop_cons.
      destruct (upload_file w p st0) as [[file_id|e] s1]; [|discriminate].
      destruct (truthy file_id).
      * destruct (add_file_to_knowledge _ _ _ _ _ _) as [[[|]|e] s2];
          [| |discriminate]; intros Hrun; apply IH in Hrun;
          cbn [count_success count_failure failed] in Hrun; split; try tauto; lia.
      * intros Hrun; apply IH in Hrun.
        cbn [count_failure failed] in Hrun. split; try tauto; lia.
Qed.

Lemma excluded_file_is_skipped_witness :
  upload_file demo_world "x/Thumbs.DB" demo_state
  = (Ret JNull, mkState demo_client [EvIsFile "x/Thumbs.DB" true]) /\
  upload_file demo_world "notes/setup.EXE" demo_state
  = (Ret JNull, mkState demo_client [EvIsFile "notes/setup.EXE" true]).
Proof.
  split.
  - apply (excluded_file_is_skipped demo_world "x/Thumbs.DB" demo_state).
    left. right. vm_compute. repeat split; auto.
  - apply (excluded_file_is_skipped demo_world "notes/setup.EXE" demo_state).
    right. intros e He. vm_compute in He.
    destruct He as [<-|[<-|[<-|[<-|[<-|[]]]]]]; vm_compute; intuition discriminate.
Defined.

Lemma process_step w knowledge_id file_path rest results st f st1 :
  process w knowledge_id file_path st = (Ret f, st1) ->
  upload_loop w knowledge_id (file_path :: rest) results st
  = upload_loop w knowledge_id rest (record_fate results file_path f) st1.
Proof.
  rewrite upload_loop_cons. unfold process. unfold bind at 1.
  destruct (upload_file w file_path st) as [[file_id|e] s1]; [|discriminate].
  destruct (truthy file_id).
  - unfold bind at 1. unfold sleep at 1. unfold bind at 1.
    destruct (add_file_to_knowledge _ _ _ _ _ _) as [[[|]|e] s2];
      unfold ret; intros H; inversion H; subst; reflexivity.
  - unfold ret. intros H; inversion H; subst. reflexivity.
Qed.

(** With well-formed upload answers the loop returns, and it has checked
    every path of the batch, in order. *)
Lemma upload_loop_total w knowledge_id file_paths results st :
  upload_answers_well_formed w ->
  exists r new,
    upload_loop w knowledge_id file_paths results st
    = (Ret r, mkState (self st) (trace st ++ new)) /\
    checked_paths new = file_paths.
Proof.
  intros WF. revert results st.
  induction file_paths as [|p rest IH]; intros results st.
  - exists results, []. simpl. unfold ret. rewrite app_nil_r. now destruct st.
  - rewrite upload_loop_cons.
    destruct (upload_file_returns w p st WF) as (file_id & s1 & Hup).
    destruct (upload_file_trace w p st) as (m1 & Hs1 & Hc1).
    rewrite Hup in *. cbn [snd] in Hs1. subst s1.
    destruct (truthy file_id).
    + destruct (add_file_returns w knowledge_id file_id
                  default_retries default_retry_delay
                  (emit (EvSleep settle_delay) (mkState (self st) (trace st ++ m1))))
        as (linked & m2 & Hadd & Hc2).
      rewrite Hadd. cbn [emit self trace] in *.
      destruct linked;
        match goal with
        | |- context [upload_loop w knowledge_id rest ?res ?s] =>
            destruct (IH res s) as (r & new & Hrun & Hc)
        end;
        rewrite Hrun; cbn [self trace];
        exists r, (m1 ++ [EvSleep settle_delay] ++ m2 ++ new);
        (split; [now rewrite <- !app_assoc|]);
        rewrite !checked_paths_app, Hc1, Hc2, Hc; reflexivity.
    + destruct (IH (count_failure results ("Failed to upload " ++ p))
                  (mkState (self st) (trace st ++ m1))) as (r & new & Hrun & Hc).
      rewrite Hrun. cbn [self trace]. exists r, (m1 ++ new).
      split; [now rewrite <- app_assoc|].
      rewrite checked_paths_app, Hc1, Hc. reflexivity.
Qed.

(** What the batch loop keeps of the per-file contract.  With the collection
    found: a batch of three files of which two are uploaded and linked and
    one fails to upload returns [{success: 2, failed: 1, total: 3}] with the
    single error [Failed to upload <path>] naming the failed file.  A file
    that ends in a terminal state, failed or not, hands the loop on to the
    remaining files; and with upload answers of the documented shape the
    batch returns, having checked every path in order.  An upload answer of
    another shape is not a terminal state: it raises. *)
Theorem batch_survives_file_failures w knowledge_name create_if_missing
    description st knowledge_id st1 :
  get_knowledge_collection_id w knowledge_name st = (Ret knowledge_id, st1) ->
  truthy knowledge_id = true ->
  (forall f1 f2 f3 fs st2 bad,
     fates w knowledge_id [f1; f2; f3] st1 = (Ret fs, st2) ->
     (fs = [UploadFailed; Linked; Linked] /\ bad = f1) \/
     (fs = [Linked; UploadFailed; Linked] /\ bad = f2) \/
     (fs = [Linked; Linked; UploadFailed] /\ bad = f3) ->
     upload_files_to_knowledge w knowledge_name [f1; f2; f3]
       create_if_missing description st
     = (Ret (mkBatch 2 1 3 [("Failed to upload " ++ bad)%string]), st2)) /\
  (forall file_path rest results s f s1,
     process w knowledge_id file_path s = (Ret f, s1) ->
     upload_loop w knowledge_id (file_path :: rest) results s
     = upload_loop w knowledge_id rest (record_fate results file_path f) s1) /\
  (forall file_paths,
     upload_answers_well_formed w ->
     exists r new,
       upload_files_to_knowledge w knowledge_name file_paths
         create_if_missing description st
       = (Ret r, mkState (self st1) (trace st1 ++ new)) /\
       checked_paths new = file_paths).
Proof.
  intros Hid Htrue. split; [|split].
  - intros f1 f2 f3 fs st2 bad Hf Hcase.
    rewrite upload_files_to_knowledge_run. cbn zeta. rewrite Hid, Htrue.
    rewrite upload_loop_fates, Hf.
    destruct Hcase as [[-> ->]|[[-> ->]|[-> ->]]]; reflexivity.
  - intros. now apply process_step.
  - intros file_paths WF.
    rewrite upload_files_to_knowledge_run. cbn zeta. rewrite Hid, Htrue.
    apply upload_loop_total. exact WF.
Qed.

Lemma batch_survives_file_failures_witness :
  upload_files_to_knowledge demo_world "Docs" ["a.md"; "gone.md"; "b.txt"]
    false "" demo_state
  = (Ret (mkBatch 2 1 3 ["Failed to upload gone.md"]),
     snd (fates demo_world (JStr "k1") ["a.md"; "gone.md"; "b.txt"]
            (snd (get_knowledge_collection_id demo_world "Docs" demo_state)))).
Proof.
  apply (proj1 (batch_survives_file_failures demo_world "Docs" false "" demo_state
                  (JStr "k1")
                  (snd (get_knowledge_collection_id demo_world "Docs" demo_state))
                  eq_refl eq_refl)
           "a.md" "gone.md" "b.txt" [Linked; UploadFailed; Linked]).
  - reflexivity.
  - right. left. split; reflexivity.
Defined.

(** C7. One file's failure can stop the batch.  The service resolves the
    collection and answers the first upload with status 200 and the body
    [{"id": "f1", "meta": null}].  [upload_file] raises [AttributeError] on
    [result.get("meta", {}).get("size")], which neither [except ValueError]
    nor [except IOError] catches; the exception leaves
    [upload_files_to_knowledge], no result is returned, and of the three
    files only [a.md] was ever looked at.  Against the same service with a
    well-shaped first answer the same batch uploads and links all three. *)
Theorem batch_stops_on_ill_shaped_upload_answer :
  let files := ["a.md"; "b.txt"; "c.pdf"] in
  let run := upload_files_to_knowledge first_upload_odd_world "Docs" files
               false "" demo_state in
  fst run = Raise AttributeError /\
  checked_paths (trace (snd run)) = ["a.md"] /\
  List.length (filter is_upload_call (trace (snd run))) = 1%nat /\
  filter is_link_call (trace (snd run)) = [] /\
  fst (upload_files_to_knowledge demo_world "Docs" files false "" demo_state)
  = Ret (mkBatch 3 0 3 []).
Proof.
  cbn zeta. repeat split; vm_compute; reflexivity.
Qed.

(** C10. Every result [upload_files_to_knowledge] returns, the two early
    collection-failure results included, has [success + failed = total] and
    [total = len(file_paths)]. *)
Theorem batch_counts_add_up w knowledge_name file_paths create_if_missing
    description st r st' :
  upload_files_to_knowledge w knowledge_name file_paths create_if_missing
    description st = (Ret r, st') ->
  (success r + failed r = total r)%Z /\ total r = len file_paths.
Proof.
  rewrite upload_files_to_knowledge_run. cbn zeta.
  destruct (get_knowledge_collection_id w knowledge_name st)
    as [[found_id|e] st1]; [|discriminate].
  destruct (truthy found_id).
  - intros H. apply upload_loop_grows in H. cbn [total success failed] in H. lia.
  - destruct create_if_missing.
    + destruct (create_knowledge_collection w knowledge_name description st1)
        as [[created_id|e] st2]; [|discriminate].
      destruct (truthy created_id).
      * intros H. apply upload_loop_grows in H. cbn [total success failed] in H. lia.
      * intros H; inversion H; subst. cbn. lia.
    + intros H; inversion H; subst. cbn. lia.
Qed.

Lemma batch_counts_add_up_witness :
  (2 + 3 = 5)%Z /\ 5%Z = len ["a.md"; "gone.md"; "x/Thumbs.db"; "b.TXT"; "c.exe"].
Proof.
  exact (batch_counts_add_up demo_world "Docs"
           ["a.md"; "gone.md"; "x/Thumbs.db"; "b.TXT"; "c.exe"] false "" demo_state
           (mkBatch 2 3 5 ["Failed to upload gone.md";
                           "Failed to upload x/Thumbs.db";
                           "Failed to upload c.exe"])
           (snd (upload_files_to_knowledge demo_world "Docs"
                   ["a.md"; "gone.md"; "x/Thumbs.db"; "b.TXT"; "c.exe"]
                   false "" demo_state))
           eq_refl).
Defined.

(* ================================================================== *)
(** ** Resolving the collection *)

Lemma same_config_refl c : same_config c c.
Proof. repeat split. Qed.

Lemma same_config_set c e : same_config c (set_knowledge_endpoint c e).
Proof. repeat split. Qed.

Lemma list_request_config c c' e :
  same_config c c' -> list_request c' e = list_request c e.
Proof. intros (H1 & _ & H2 & _). unfold list_request. now rewrite H1, H2. Qed.

Lemma create_request_config c c' payload e :
  same_config c c' -> create_request c' payload e = create_request c payload e.
Proof. intros (H1 & _ & H2 & _). unfold create_request. now rewrite H1, H2. Qed.

Lemma list_loop_traffic w endpoints st :
  exists j c' new,
    list_loop w endpoints st = (Ret j, mkState c' (trace st ++ new)) /\
    same_config (self st) c' /\
    Forall (fun ev => exists e o, In e endpoints /\
                                  ev = EvRequest (list_request (self st) e) o) new.
Proof.
  revert st. induction endpoints as [|e rest IH]; intros st.
  - exists (JArr []), (self st), []. simpl. unfold ret. rewrite app_nil_r.
    destruct st. repeat split. constructor.
  - rewrite list_loop_cons. cbn zeta.
    set (rq := list_request (self st) e). set (o := w_request w (trace st) rq).
    assert (Hhd : exists e0 o0, In e0 (e :: rest) /\
                    EvRequest rq o = EvRequest (list_request (self st) e0) o0)
      by (exists e, o; split; [now left|reflexivity]).
    destruct (parsed o) as [j|].
    + exists j, (set_knowledge_endpoint (self st) e), [EvRequest rq o].
      repeat split. constructor; [exact Hhd|constructor].
    + destruct (IH (emit (EvRequest rq o) st)) as (j & c' & new & Hrun & Hc & Hall).
      exists j, c', (EvRequest rq o :: new). rewrite Hrun. cbn [emit self trace] in *.
      rewrite <- app_assoc. repeat split; try apply Hc.
      constructor; [exact Hhd|].
      eapply Forall_impl; [|exact Hall]. cbn beta.
      intros ev (e0 & o0 & Hin & ->). exists e0, o0. split; [now right|reflexivity].
Qed.

Lemma create_loop_traffic w payload endpoints st :
  exists r c' new,
    create_loop w payload endpoints st = (r, mkState c' (trace st ++ new)) /\
    same_config (self st) c' /\
    Forall (fun ev => exists e o, In e endpoints /\
                        ev = EvRequest (create_request (self st) payload e) o) new.
Proof.
  revert st. induction endpoints as [|e rest IH]; intros st.
  - exists (Ret JNull), (self st), []. simpl. unfold ret. rewrite app_nil_r.
    destruct st. repeat split. constructor.
  - rewrite create_loop_cons. cbn zeta.
    set (rq := create_request (self st) payload e).
    set (o := w_request w (trace st) rq).
    assert (Hhd : exists e0 o0, In e0 (e :: rest) /\
                    EvRequest rq o = EvRequest (create_request (self st) payload e0) o0)
      by (exists e, o; split; [now left|reflexivity]).
    destruct (parsed o) as [j|].
    + destruct (py_get j "id" JNull) as [v|x].
      * eexists (Ret v), _, [EvRequest rq o]. split; [reflexivity|]. split.
        -- destruct (discovered (self st));
             [apply same_config_refl | apply same_config_set].
        -- constructor; [exact Hhd|constructor].
      * exists (Raise x), (self st), [EvRequest rq o].
        repeat split. constructor; [exact Hhd|constructor].
    + destruct (IH (emit (EvRequest rq o) st)) as (r & c' & new & Hrun & Hc & Hall).
      exists r, c', (EvRequest rq o :: new). rewrite Hrun. cbn [emit self trace] in *.
      rewrite <- app_assoc. repeat split; try apply Hc.
      constructor; [exact Hhd|].
      eapply Forall_impl; [|exact Hall]. cbn beta.
      intros ev (e0 & o0 & Hin & ->). exists e0, o0. split; [now right|reflexivity].
Qed.

Lemma get_knowledge_collection_id_run w name st :
  get_knowledge_collection_id w name st
  = match list_knowledge_collections w st with
    | (Ret collections, st1) =>
        (match py_iter collections with
         | Ret items => find_collection name items
         | Raise e => Raise e
         end, st1)
    | (Raise e, st1) => (Raise e, st1)
    end.
Proof.
  unfold get_knowledge_collection_id. unfold bind at 1.
  destruct (list_knowledge_collections w st) as [[collections|e] st1]; [|reflexivity].
  unfold bind, lift. destruct (py_iter collections); reflexivity.
Qed.

Lemma eq_str_true v s : eq_str v s = true <-> v = JStr s.
Proof.
  destruct v; simpl; split; try discriminate.
  - intros H. apply String.eqb_eq in H. now subst.
  - intros H. inversion H. apply String.eqb_refl.
Qed.

Lemma find_collection_sound name items v :
  find_collection name items = Ret v -> v <> JNull ->
  exists c, In c items /\ py_get c "name" JNull = Ret (JStr name) /\
            py_get c "id" JNull = Ret v.
Proof.
  induction items as [|c rest IH]; simpl.
  - intros H Hv. inversion H. congruence.
  - destruct (py_get c "name" JNull) as [n|e] eqn:En; [|discriminate].
    destruct (eq_str n name) eqn:E.
    + apply eq_str_true in E. subst n. intros Hid _. exists c. auto.
    + intros H Hv. destruct (IH H Hv) as (c' & Hin & Hn & Hi). exists c'. auto.
Qed.

Lemma find_collection_first name before c after :
  Forall (fun b => exists n, py_get b "name" JNull = Ret n /\ n <> JStr name) before ->
  py_get c "name" JNull = Ret (JStr name) ->
  find_collection name (before ++ c :: after) = py_get c "id" JNull.
Proof.
  intros Hb Hc. induction Hb as [|b before (n & Hn & Hne) _ IH]; simpl.
  - rewrite Hc. simpl. now rewrite String.eqb_refl.
  - rewrite Hn. destruct (eq_str n name) eqn:E; [|exact IH].
    apply eq_str_true in E. contradiction.
Qed.

Lemma find_collection_none name items :
  Forall (fun b => exists n, py_get b "name" JNull = Ret n /\ n <> JStr name) items ->
  find_collection name items = Ret JNull.
Proof.
  induction 1 as [|b items (n & Hn & Hne) _ IH]; simpl; [reflexivity|].
  rewrite Hn. destruct (eq_str n name) eqn:E; [|exact IH].
  apply eq_str_true in E. contradiction.
Qed.

(** C8. [get_knowledge_collection_id] compares the [name] field of each
    listed collection with the queried name by string equality, which is
    case-sensitive.  An id it returns is the [id] of a listed collection
    with exactly that name, namely of the first such collection in the
    listing; when every listed collection has another name, it returns
    [None]. *)
Theorem lookup_matches_exact_name w name st collections st1 :
  list_knowledge_collections w st = (Ret collections, st1) ->
  (forall v st',
     get_knowledge_collection_id w name st = (Ret v, st') -> v <> JNull ->
     st' = st1 /\
     exists items c,
       py_iter collections = Ret items /\ In c items /\
       py_get c "name" JNull = Ret (JStr name) /\
       py_get c "id" JNull = Ret v) /\
  (forall before c after,
     collections = JArr (before ++ c :: after) ->
     Forall (fun b => exists n, py_get b "name" JNull = Ret n /\ n <> JStr name)
            before ->
     py_get c "name" JNull = Ret (JStr name) ->
     get_knowledge_collection_id w name st = (py_get c "id" JNull, st1)) /\
  (forall items,
     collections = JArr items ->
     Forall (fun b => exists n, py_get b "name" JNull = Ret n /\ n <> JStr name)
            items ->
     get_knowledge_collection_id w name st = (Ret JNull, st1)).
Proof.
  intros Hlist. rewrite get_knowledge_collection_id_run, Hlist.
  split; [|split].
  - intros v st' H Hv. inversion H; subst st'. split; [reflexivity|].
    destruct (py_iter collections) as [items|e]; [|discriminate].
    match goal with Hf : find_collection _ _ = _ |- _ =>
      destruct (find_collection_sound _ _ _ Hf Hv) as (c & Hin & Hn & Hi) end.
    exists items, c. repeat split; auto; congruence.
  - intros before c after -> Hb Hc. cbn [py_iter].
    now rewrite find_collection_first.
  - intros items -> Hall. cbn [py_iter]. now rewrite find_collection_none.
Qed.

Lemma lookup_matches_exact_name_witness :
  get_knowledge_collection_id demo_world "Docs" demo_state
  = (Ret (JStr "k1"), snd (list_knowledge_collections demo_world demo_state)) /\
  get_knowledge_collection_id demo_world "DOCS" demo_state
  = (Ret JNull, snd (list_knowledge_collections demo_world demo_state)).
Proof.
  split.
  - apply (proj1 (proj2 (lookup_matches_exact_name demo_world "Docs" demo_state
                           docs_listing
                           (snd (list_knowledge_collections demo_world demo_state))
                           eq_refl))
             [JObj [("id", JStr "k0"); ("name", JStr "docs")]]
             (JObj [("id", JStr "k1"); ("name", JStr "Docs")])
             [JObj [("id", JStr "k2"); ("name", JStr "Docs")]]).
    + reflexivity.
    + constructor; [|constructor]. exists (JStr "docs"). split; [reflexivity|discriminate].
    + reflexivity.
  - apply (proj2 (proj2 (lookup_matches_exact_name demo_world "DOCS" demo_state
                           docs_listing
                           (snd (list_knowledge_collections demo_world demo_state))
                           eq_refl))
             [JObj [("id", JStr "k0"); ("name", JStr "docs")];
              JObj [("id", JStr "k1"); ("name", JStr "Docs")];
              JObj [("id", JStr "k2"); ("name", JStr "Docs")]]).
    + reflexivity.
    + repeat constructor;
        solve [exists (JStr "docs"); split; [reflexivity|discriminate]
              |exists (JStr "Docs"); split; [reflexivity|discriminate]].
Defined.

Lemma list_loop_stationary w endpoints st st' :
  unchanged_remote w ->
  same_config (self st) (self st') ->
  fst (list_loop w endpoints st') = fst (list_loop w endpoints st).
Proof.
  intros Hw. revert st st'. induction endpoints as [|e rest IH]; intros st st' Hc.
  - reflexivity.
  - rewrite !list_loop_cons. cbn zeta.
    rewrite (list_request_config _ _ e Hc).
    rewrite (Hw (trace st') (trace st)).
    destruct (parsed _); [reflexivity|].
    apply IH. exact Hc.
Qed.

(** C9. Against a remote that gives the same responses to the same
    requests, a second [get_knowledge_collection_id] on the client as the
    first call left it (endpoint cached or not) has the same result as the
    first: the same id, the same [None], or the same exception. *)
Theorem lookup_is_idempotent w name st :
  unchanged_remote w ->
  fst (get_knowledge_collection_id w name
         (snd (get_knowledge_collection_id w name st)))
  = fst (get_knowledge_collection_id w name st).
Proof.
  intros Hw. rewrite !get_knowledge_collection_id_run.
  unfold list_knowledge_collections.
  destruct (list_loop_traffic w list_endpoints st) as (j & c' & new & Hrun & Hc & _).
  rewrite Hrun. cbn [snd].
  pose proof (list_loop_stationary w list_endpoints st
                (mkState c' (trace st ++ new)) Hw Hc) as Hsame.
  rewrite Hrun in Hsame. cbn [fst] in Hsame.
  destruct (list_loop w list_endpoints (mkState c' (trace st ++ new)))
    as [r2 st2]. cbn [fst] in Hsame. subst r2. reflexivity.
Qed.

Lemma lookup_is_idempotent_witness :
  fst (get_knowledge_collection_id demo_world "Docs"
         (snd (get_knowledge_collection_id demo_world "Docs" demo_state)))
  = Ret (JStr "k1") /\
  _knowledge_endpoint
    (self (snd (get_knowledge_collection_id demo_world "Docs" demo_state)))
  = Some "/api/v1/knowledge".
Proof.
  split; [|reflexivity].
  rewrite (lookup_is_idempotent demo_world "Docs" demo_state).
  - reflexivity.
  - intros h h' rq. reflexivity.
Defined.

(* ================================================================== *)
(** ** A batch without a collection *)

Lemma create_endpoints_suffix c e :
  In e (create_endpoints c) -> exists base, e = (base ++ "/create")%string.
Proof.
  unfold create_endpoints. intros [H|[H|[H|[H|[]]]]]; subst e.
  - eauto.
  - now exists "/api/v1/workspace/knowledge".
  - now exists "/api/v1/knowledges".
  - now exists "/api/v1/knowledge".
Qed.

Lemma collection_traffic_quiet c name description ev :
  collection_traffic c name description ev ->
  is_upload_call ev = false /\ is_link_call ev = false /\ is_file_access ev = false.
Proof.
  destruct ev as [| |rq o|]; simpl; try tauto.
  intros [(e & _ & ->)|(base & ->)]; repeat split.
Qed.

Lemma lookup_traffic w name description st :
  exists r c' new,
    get_knowledge_collection_id w name st = (r, mkState c' (trace st ++ new)) /\
    same_config (self st) c' /\
    Forall (collection_traffic (self st) name description) new.
Proof.
  rewrite get_knowledge_collection_id_run. unfold list_knowledge_collections.
  destruct (list_loop_traffic w list_endpoints st) as (j & c' & new & Hrun & Hc & Hall).
  rewrite Hrun.
  exists (match py_iter j with
          | Ret items => find_collection name items
          | Raise e => Raise e
          end), c', new.
  split; [reflexivity|]. split; [exact Hc|].
  eapply Forall_impl; [|exact Hall]. cbn beta.
  intros ev (e & o & Hin & ->). simpl. left. exists e. now split.
Qed.

Lemma creation_traffic w name description st :
  exists r c' new,
    create_knowledge_collection w name description st
    = (r, mkState c' (trace st ++ new)) /\
    same_config (self st) c' /\
    Forall (collection_traffic (self st) name description) new.
Proof.
  unfold create_knowledge_collection, bind, get_self.
  destruct (create_loop_traffic w
              (JObj [("name", JStr name); ("description", JStr description)])
              (create_endpoints (self st)) st)
    as (r & c' & new & Hrun & Hc & Hall).
  rewrite Hrun. exists r, c', new. split; [reflexivity|]. split; [exact Hc|].
  eapply Forall_impl; [|exact Hall]. cbn beta.
  intros ev (e & o & Hin & ->). simpl. right.
  destruct (create_endpoints_suffix _ _ Hin) as (base & ->). now exists base.
Qed.

Lemma collection_traffic_config c c' name description ev :
  same_config c c' ->
  collection_traffic c' name description ev ->
  collection_traffic c name description ev.
Proof.
  intros Hc. destruct ev as [| |rq o|]; simpl; try tauto.
  intros [(e & Hin & ->)|(base & ->)].
  - left. exists e. split; [exact Hin|]. now apply list_request_config.
  - right. exists base. now apply create_request_config.
Qed.

(** C2. When the lookup returns no id (anything falsy) and either
    [create_if_missing] is false or the creation returns no id either, the
    batch returns [{success: 0, failed: N, total: N}] for its [N] paths with
    exactly one error message, and everything it did is collection traffic:
    listing GETs and create POSTs, no upload call, no link call and no
    access to any file. *)
Theorem unresolved_collection_fails_batch w knowledge_name file_paths
    create_if_missing description st found_id st1 :
  get_knowledge_collection_id w knowledge_name st = (Ret found_id, st1) ->
  truthy found_id = false ->
  create_if_missing = false \/
  (exists created_id st2,
     create_knowledge_collection w knowledge_name description st1
     = (Ret created_id, st2) /\ truthy created_id = false) ->
  exists message st' new,
    upload_files_to_knowledge w knowledge_name file_paths create_if_missing
      description st
    = (Ret (mkBatch 0 (len file_paths) (len file_paths) [message]), st') /\
    trace st' = trace st ++ new /\
    Forall (collection_traffic (self st) knowledge_name description) new /\
    Forall (fun ev => is_upload_call ev = false /\ is_link_call ev = false /\
                      is_file_access ev = false) new.
Proof.
  intros Hid Hfalsy Hcreate.
  rewrite upload_files_to_knowledge_run. cbn zeta. rewrite Hid, Hfalsy.
  destruct (lookup_traffic w knowledge_name description st)
    as (r & c1 & new1 & Hrun1 & Hc1 & Hall1).
  rewrite Hid in Hrun1. inversion Hrun1; subst r st1. clear Hrun1.
  assert (Hquiet : forall new,
            Forall (collection_traffic (self st) knowledge_name description) new ->
            Forall (fun ev => is_upload_call ev = false /\ is_link_call ev = false /\
                              is_file_access ev = false) new).
  { intros new Hall. eapply Forall_impl; [|exact Hall].
    intros ev. apply collection_traffic_quiet. }
  destruct create_if_missing.
  - destruct Hcreate as [Hno|(created_id & st2 & Hcr & Hfalsy2)]; [discriminate|].
    rewrite Hcr, Hfalsy2.
    destruct (creation_traffic w knowledge_name description
                (mkState c1 (trace st ++ new1)))
      as (r & c2 & new2 & Hrun2 & Hc2 & Hall2).
    rewrite Hcr in Hrun2. inversion Hrun2; subst r st2. clear Hrun2.
    cbn [self trace] in *.
    assert (Hall : Forall (collection_traffic (self st) knowledge_name description)
                     (new1 ++ new2)).
    { apply Forall_app. split; [exact Hall1|].
      eapply Forall_impl; [|exact Hall2].
      intros ev. now apply collection_traffic_config. }
    eexists _, _, (new1 ++ new2). split; [reflexivity|].
    cbn [trace]. rewrite <- app_assoc. auto.
  - eexists _, _, new1. split; [reflexivity|]. cbn [trace]. auto.
Qed.

Lemma unresolved_collection_fails_batch_witness :
  (exists message st' new,
     upload_files_to_knowledge demo_world "nope" ["a.md"; "b.md"] false "" demo_state
     = (Ret (mkBatch 0 (len ["a.md"; "b.md"]) (len ["a.md"; "b.md"]) [message]), st') /\
     trace st' = trace demo_state ++ new /\
     Forall (collection_traffic (self demo_state) "nope" "") new /\
     Forall (fun ev => is_upload_call ev = false /\ is_link_call ev = false /\
                       is_file_access ev = false) new) /\
  (exists message st' new,
     upload_files_to_knowledge down_world "nope" ["a.md"; "b.md"] true "" demo_state
     = (Ret (mkBatch 0 (len ["a.md"; "b.md"]) (len ["a.md"; "b.md"]) [message]), st') /\
     trace st' = trace demo_state ++ new /\
     Forall (collection_traffic (self demo_state) "nope" "") new /\
     Forall (fun ev => is_upload_call ev = false /\ is_link_call ev = false /\
                       is_file_access ev = false) new).
Proof.
  split.
  - apply (unresolved_collection_fails_batch demo_world "nope" ["a.md"; "b.md"]
             false "" demo_state JNull
             (snd (get_knowledge_collection_id demo_world "nope" demo_state))
             eq_refl eq_refl).
    left. reflexivity.
  - apply (unresolved_collection_fails_batch down_world "nope" ["a.md"; "b.md"]
             true "" demo_state JNull
             (snd (get_knowledge_collection_id down_world "nope" demo_state))
             eq_refl eq_refl).
    right.
    exists JNull,
      (snd (create_knowledge_collection down_world "nope" ""
              (snd (get_knowledge_collection_id down_world "nope" demo_state)))).
    split; reflexivity.
Defined.

(* ================================================================== *)
(** ** The constructor *)

Lemma rstrip_app_sep c s :
  PyStr.rstrip c (s ++ String c EmptyString) = PyStr.rstrip c s.
Proof.
  induction s as [|a r IH]; simpl.
  - now rewrite Ascii.eqb_refl.
  - now rewrite IH.
Qed.

Lemma rstrip_no_trailing_sep c s t :
  PyStr.rstrip c s <> (t ++ String c EmptyString)%string.
Proof.
  revert t. induction s as [|a r IH]; intros t; simpl.
  - destruct t; discriminate.
  - destruct (PyStr.rstrip c r) as [|b r'] eqn:E.
    + destruct (Ascii.eqb a c) eqn:Eac.
      * destruct t; discriminate.
      * destruct t as [|x t]; simpl.
        -- intros H. inversion H; subst. now rewrite Ascii.eqb_refl in Eac.
        -- destruct t; discriminate.
    + destruct t as [|x t]; simpl.
      * discriminate.
      * intros H. inversion H. eapply IH; eassumption.
Qed.

Lemma rstrip_decompose c s :
  exists t, s = (PyStr.rstrip c s ++ t)%string /\ PyStr.rstrip c t = EmptyString.
Proof.
  induction s as [|a r (t & Hr & Ht)]; simpl.
  - exists EmptyString. split; reflexivity.
  - destruct (PyStr.rstrip c r) as [|b r'] eqn:E.
    + simpl in Hr. subst t. destruct (Ascii.eqb a c) eqn:Eac.
      * exists (String a r). split; [reflexivity|]. simpl. now rewrite Ht, Eac.
      * exists r. split; [reflexivity|exact Ht].
    + exists t. split; [|exact Ht]. simpl. f_equal. exact Hr.
Qed.

(** X1. The client's [api_endpoint] is the given endpoint without its
    trailing slashes: it never ends in [/], what was cut off is slashes
    only, and one more trailing slash gives the same client. *)
Theorem init_strips_trailing_slashes e key :
  init (e ++ "/") key = init e key /\
  (forall t, api_endpoint (init e key) <> (t ++ "/")%string) /\
  exists t, e = (api_endpoint (init e key) ++ t)%string /\
            PyStr.rstrip "/" t = "".
Proof.
  split; [|split].
  - unfold init. now rewrite rstrip_app_sep.
  - intros t. apply rstrip_no_trailing_sep.
  - apply rstrip_decompose.
Qed.

(* ================================================================== *)
(** ** The allow-list, by extension only *)

Lemma lower_ascii_is c x :
  In x ["."%char; "/"%char] ->
  Ascii.eqb (PyStr.lower_ascii c) x = Ascii.eqb c x.
Proof.
  intros [<-|[<-|[]]]; destruct c as [[] [] [] [] [] [] [] []]; reflexivity.
Qed.

Lemma rfind_lower x s :
  In x ["."%char; "/"%char] ->
  PyStr.rfind x (PyStr.lower s) = PyStr.rfind x s.
Proof.
  intros Hx. induction s as [|a r IH]; simpl; [reflexivity|].
  now rewrite IH, lower_ascii_is.
Qed.

Lemma length_lower s : String.length (PyStr.lower s) = String.length s.
Proof. induction s; simpl; congruence. Qed.

Lemma drop_lower i s : PyStr.drop i (PyStr.lower s) = PyStr.lower (PyStr.drop i s).
Proof.
  revert s. induction i as [|i IH]; intros [|a r]; simpl; auto.
Qed.

(** The suffix of a name, lowered, is the suffix of the lowered name. *)
Lemma lower_suffix file_path :
  PyStr.lower (PyPath.suffix file_path)
  = let n := PyStr.lower (PyPath.name file_path) in
    match PyStr.rfind "." n with
    | Some i => if (0 <? i)%nat && (i <? String.length n - 1)%nat
                then PyStr.drop i n else ""
    | None => ""
    end.
Proof.
  unfold PyPath.suffix. cbn zeta.
  rewrite rfind_lower by (now left). rewrite length_lower.
  destruct (PyStr.rfind "." (PyPath.name file_path)) as [i|]; [|reflexivity].
  destruct ((0 <? i)%nat && (i <? String.length (PyPath.name file_path) - 1)%nat);
    [|reflexivity].
  now rewrite drop_lower.
Qed.

(** The decision as a function of the lowered name alone. *)
Lemma allowed_by_lowered_name file_path :
  is_allowed_file file_path
  = let n := PyStr.lower (PyPath.name file_path) in
    PyStr.mem
      (match PyStr.rfind "." n with
       | Some i => if (0 <? i)%nat && (i <? String.length n - 1)%nat
                   then PyStr.drop i n else ""
       | None => ""
       end) allowed_extensions.
Proof.
  unfold is_allowed_file. rewrite lower_suffix. cbn zeta.
  destruct (PyStr.mem (PyStr.lower (PyPath.name file_path)) system_files) eqn:E;
    [|reflexivity].
  apply mem_In in E. destruct E as [<-|[<-|[]]]; reflexivity.
Qed.

(** X2. The decision of [is_allowed_file] is the extension test alone: the
    two system file names have no allowed extension, so the check for them
    never changes the result. *)
Theorem allow_list_decides_by_extension file_path :
  is_allowed_file file_path
  = PyStr.mem (PyStr.lower (PyPath.suffix file_path)) allowed_extensions.
Proof.
  unfold is_allowed_file.
  destruct (PyStr.mem (PyStr.lower (PyPath.name file_path)) system_files) eqn:E;
    [|reflexivity].
  rewrite lower_suffix. cbn zeta.
  apply mem_In in E. destruct E as [<-|[<-|[]]]; reflexivity.
Qed.

Lemma lower_ascii_idem c : PyStr.lower_ascii (PyStr.lower_ascii c) = PyStr.lower_ascii c.
Proof. destruct c as [[] [] [] [] [] [] [] []]; reflexivity. Qed.

Lemma lower_idem s : PyStr.lower (PyStr.lower s) = PyStr.lower s.
Proof. induction s as [|a r IH]; simpl; [reflexivity|]. now rewrite lower_ascii_idem, IH. Qed.

Lemma split_lower s :
  PyStr.split "/" (PyStr.lower s) = map PyStr.lower (PyStr.split "/" s).
Proof.
  induction s as [|a r IH]; simpl; [reflexivity|].
  rewrite lower_ascii_is by (right; now left). rewrite IH.
  destruct (Ascii.eqb a "/"); [reflexivity|].
  destruct (PyStr.split "/" r); reflexivity.
Qed.

Lemma kept_lower x :
  negb (String.eqb (PyStr.lower x) "") && negb (String.eqb (PyStr.lower x) ".")
  = negb (String.eqb x "") && negb (String.eqb x ".").
Proof.
  destruct x as [|a [|b r]]; simpl; try reflexivity.
  - rewrite (lower_ascii_is a ".") by (now left). reflexivity.
  - rewrite (lower_ascii_is a ".") by (now left). reflexivity.
Qed.

Lemma filter_map_comm {A B} (f : B -> bool) (g : A -> B) l :
  filter f (map g l) = map g (filter (fun x => f (g x)) l).
Proof.
  induction l as [|x l IH]; simpl; [reflexivity|].
  destruct (f (g x)); simpl; now rewrite IH.
Qed.

Lemma last_map_comm {A B} (g : A -> B) l d :
  last (map g l) (g d) = g (last l d).
Proof.
  induction l as [|x l IH]; [reflexivity|].
  destruct l as [|y l]; [reflexivity|]. exact IH.
Qed.

Lemma parts_lower file_path :
  PyPath.parts (PyStr.lower file_path) = map PyStr.lower (PyPath.parts file_path).
Proof.
  unfold PyPath.parts. rewrite split_lower, filter_map_comm.
  f_equal. apply filter_ext. intros x. apply kept_lower.
Qed.

Lemma name_lower file_path :
  PyPath.name (PyStr.lower file_path) = PyStr.lower (PyPath.name file_path).
Proof.
  unfold PyPath.name. rewrite parts_lower.
  exact (last_map_comm PyStr.lower (PyPath.parts file_path) "").
Qed.

Lemma is_allowed_file_lower file_path :
  is_allowed_file (PyStr.lower file_path) = is_allowed_file file_path.
Proof.
  rewrite !allowed_by_lowered_name, name_lower, lower_idem. reflexivity.
Qed.

(** X3. The allow-list does not depend on letter case anywhere in the
    path: two paths that differ in letter case only are both allowed or
    both turned away. *)
Theorem allow_list_ignores_case p q :
  same_ignoring_case p q -> is_allowed_file p = is_allowed_file q.
Proof.
  intros H. apply same_ignoring_case_lower in H.
  rewrite <- (is_allowed_file_lower p), <- (is_allowed_file_lower q).
  now rewrite H.
Qed.

Lemma allow_list_ignores_case_witness :
  is_allowed_file "Docs/ReadMe.MD" = is_allowed_file "docs/readme.md".
Proof.
  apply (allow_list_ignores_case "Docs/ReadMe.MD" "docs/readme.md").
  vm_compute. intuition.
Defined.

(** A piece between separators contains no separator. *)
Lemma split_atomic c s x :
  In x (PyStr.split c s) -> PyStr.split c x = [x].
Proof.
  revert x. induction s as [|a r IH]; intros x; simpl.
  - intros [<-|[]]. reflexivity.
  - destruct (Ascii.eqb a c) eqn:Eac.
    + intros [<-|H]; [reflexivity|now apply IH].
    + destruct (PyStr.split c r) as [|w ws] eqn:Er.
      * intros [<-|[]]. simpl. now rewrite Eac.
      * intros [<-|H].
        -- simpl. rewrite Eac, (IH w) by now left. reflexivity.
        -- apply IH. now right.
Qed.

Lemma last_In {A} (l : list A) d : l <> [] -> In (last l d) l.
Proof.
  induction l as [|x l IH]; [congruence|]. intros _.
  destruct l as [|y l]; [now left|]. right. apply IH. discriminate.
Qed.

Lemma name_of_name file_path :
  PyPath.name (PyPath.name file_path) = PyPath.name file_path.
Proof.
  unfold PyPath.name at 2 3.
  destruct (PyPath.parts file_path) as [|x l] eqn:E; [reflexivity|].
  assert (Hin : In (last (x :: l) "") (PyPath.parts file_path))
    by (rewrite E; apply last_In; discriminate).
  unfold PyPath.parts in Hin. apply filter_In in Hin. destruct Hin as [Hin Hkeep].
  unfold PyPath.name, PyPath.parts.
  rewrite (split_atomic _ _ _ Hin). cbn [filter]. rewrite Hkeep. reflexivity.
Qed.

(** X4. Only the final path component counts: the name of a path is its
    own name, and the allow-list gives the path the verdict of its final
    component, whatever the directories are called. *)
Theorem allow_list_reads_final_component file_path :
  PyPath.name (PyPath.name file_path) = PyPath.name file_path /\
  PyPath.suffix (PyPath.name file_path) = PyPath.suffix file_path /\
  is_allowed_file (PyPath.name file_path) = is_allowed_file file_path.
Proof.
  split; [apply name_of_name|]. split.
  - unfold PyPath.suffix. now rewrite name_of_name.
  - unfold is_allowed_file, PyPath.suffix. now rewrite name_of_name.
Qed.

(* ================================================================== *)
(** ** More on the upload of one file *)

Lemma py_get_raises x k d e : py_get x k d = Raise e -> e = AttributeError.
Proof. destruct x; simpl; intros H; inversion H; reflexivity. Qed.

Lemma upload_log_fields_raises j e :
  upload_log_fields j = Raise e -> e = AttributeError.
Proof.
  unfold upload_log_fields.
  repeat match goal with
         | |- context [match py_get ?x ?k ?d with _ => _ end] =>
             let E := fresh "E" in
             destruct (py_get x k d) eqn:E;
             [|apply py_get_raises in E; subst; intros H; now inversion H]
         | |- context [if ?b then _ else _] => destruct b
         end;
    discriminate.
Qed.

(** X5. [upload_file] sends at most one request and never retries.  When it
    sends one, the path passed the allow-list, [isfile] and [open]
    succeeded just before, and the request is the multipart POST to
    [/api/v1/files/] with the upload headers and the single form field
    [file], named by the path's basename. *)
Theorem upload_sends_at_most_one_request w file_path st :
  exists more,
    snd (upload_file w file_path st) = mkState (self st) (trace st ++ more) /\
    (attempts more <= 1)%nat /\
    forall rq o, In (EvRequest rq o) more ->
      is_allowed_file file_path = true /\
      more = [EvIsFile file_path true; EvOpen file_path true; EvRequest rq o] /\
      rq = mkRequest POST (api_endpoint (self st) ++ "/api/v1/files/")
             (upload_headers (self st))
             (Files "file" (PyPath.basename file_path) file_path).
Proof.
  rewrite upload_file_run. cbn zeta.
  set (found := w_isfile w (trace st) file_path).
  set (opened := w_open w _ file_path).
  set (o := w_request w _ _).
  assert (H1 : exists more,
             emit (EvIsFile file_path found) st = mkState (self st) (trace st ++ more) /\
             (attempts more <= 1)%nat /\
             forall rq o, In (EvRequest rq o) more ->
               is_allowed_file file_path = true /\
               more = [EvIsFile file_path true; EvOpen file_path true; EvRequest rq o] /\
               rq = upload_request (self st) file_path).
  { exists [EvIsFile file_path found]. split; [reflexivity|]. split; [cbn; lia|].
    intros rq o' [H|[]]. discriminate. }
  assert (H2 : exists more,
             emit (EvOpen file_path opened) (emit (EvIsFile file_path found) st)
             = mkState (self st) (trace st ++ more) /\
             (attempts more <= 1)%nat /\
             forall rq o, In (EvRequest rq o) more ->
               is_allowed_file file_path = true /\
               more = [EvIsFile file_path true; EvOpen file_path true; EvRequest rq o] /\
               rq = upload_request (self st) file_path).
  { exists [EvIsFile file_path found; EvOpen file_path opened].
    split; [unfold emit; simpl; now rewrite <- app_assoc|]. split; [cbn; lia|].
    intros rq o' [H|[H|[]]]; discriminate. }
  destruct found eqn:Ef; cbn [negb]; [|exact H1].
  destruct (is_allowed_file file_path) eqn:Ea; cbn [negb]; [|exact H1].
  destruct opened eqn:Eo; cbn [negb]; [|exact H2].
  assert (H3 : exists more,
             emit (EvRequest (upload_request (self st) file_path) o)
               (emit (EvOpen file_path true) (emit (EvIsFile file_path true) st))
             = mkState (self st) (trace st ++ more) /\
             (attempts more <= 1)%nat /\
             forall rq o, In (EvRequest rq o) more ->
               true = true /\
               more = [EvIsFile file_path true; EvOpen file_path true; EvRequest rq o] /\
               rq = upload_request (self st) file_path).
  { exists [EvIsFile file_path true; EvOpen file_path true;
            EvRequest (upload_request (self st) file_path) o].
    split; [unfold emit; simpl; now rewrite <- !app_assoc|]. split; [cbn; lia|].
    intros rq o' [H|[H|[H|[]]]]; try discriminate. inversion H; subst. auto. }
  destruct (request_result o) as [r|]; [|exact H3].
  destruct (json_body r) as [j|]; [|exact H3].
  destruct (py_get j "id" JNull); [|exact H3].
  destruct (upload_log_fields j); exact H3.
Qed.

(** X6. A file id that [upload_file] returns comes from the server: the
    path was checked, opened and posted, the answer was not an HTTP error,
    its body parsed as JSON, and the id is that object's [id] field.  The
    content type of the answer is not looked at. *)
Theorem uploaded_id_comes_from_answer w file_path st file_id st' :
  upload_file w file_path st = (Ret file_id, st') ->
  file_id <> JNull ->
  exists r j,
    st' = mkState (self st)
            (trace st ++ [EvIsFile file_path true; EvOpen file_path true;
                          EvRequest (upload_request (self st) file_path) (Answer r)]) /\
    http_error r = false /\
    json_body r = Some j /\
    py_get j "id" JNull = Ret file_id.
Proof.
  rewrite upload_file_run. cbn zeta.
  destruct (w_isfile w (trace st) file_path) eqn:Ef; cbn [negb];
    [|intros H; inversion H; congruence].
  destruct (is_allowed_file file_path); cbn [negb];
    [|intros H; inversion H; congruence].
  destruct (w_open w _ file_path) eqn:Eo; cbn [negb];
    [|intros H; inversion H; congruence].
  set (o := w_request w _ _).
  destruct o as [|r] eqn:Eout; cbn [request_result];
    [intros H; inversion H; congruence|].
  destruct (http_error r) eqn:Eh; [intros H; inversion H; congruence|].
  destruct (json_body r) as [j|] eqn:Ej; [|intros H; inversion H; congruence].
  destruct (py_get j "id" JNull) as [v|e] eqn:Eid; [|discriminate].
  destruct (upload_log_fields j); [|discriminate].
  intros H _. inversion H; subst. exists r, j. repeat split; auto.
  unfold emit. cbn [self trace]. now rewrite <- !app_assoc.
Qed.

Lemma uploaded_id_comes_from_answer_witness :
  exists r j,
    snd (upload_file demo_world "a.md" demo_state)
    = mkState (self demo_state)
        (trace demo_state ++ [EvIsFile "a.md" true; EvOpen "a.md" true;
                              EvRequest (upload_request (self demo_state) "a.md")
                                        (Answer r)]) /\
    http_error r = false /\
    json_body r = Some j /\
    py_get j "id" JNull = Ret (JStr "f1").
Proof.
  apply (uploaded_id_comes_from_answer demo_world "a.md" demo_state (JStr "f1")
           (snd (upload_file demo_world "a.md" demo_state))).
  - reflexivity.
  - discriminate.
Defined.

Lemma upload_log_fields_shape kv :
  upload_log_fields (JObj kv)
  = if well_shaped_upload (JObj kv) then Ret tt else Raise AttributeError.
Proof.
  unfold upload_log_fields, well_shaped_upload. cbn [py_get].
  destruct (truthy (dict_get kv "filename" JNull));
    destruct (dict_get kv "meta" (JObj [])); try reflexivity;
    destruct (dict_get kv "data" (JObj [])); reflexivity.
Qed.

(** X7. Once the upload was sent and answered without an HTTP error by a
    body that parses as JSON, the shape of that body decides: an object
    whose [meta] and [data] fields are absent or objects makes
    [upload_file] return the object's [id] ([None] when there is none);
    any other body (not an object, or [meta] or [data] present and not an
    object, [null] included) makes it raise [AttributeError]. *)
Theorem upload_answer_shape_decides w file_path st r j :
  let st1 := emit (EvIsFile file_path true) st in
  let st2 := emit (EvOpen file_path true) st1 in
  let rq := upload_request (self st) file_path in
  w_isfile w (trace st) file_path = true ->
  is_allowed_file file_path = true ->
  w_open w (trace st1) file_path = true ->
  w_request w (trace st2) rq = Answer r ->
  http_error r = false ->
  json_body r = Some j ->
  upload_file w file_path st
  = (if well_shaped_upload j
     then match j with
          | JObj kv => Ret (dict_get kv "id" JNull)
          | _ => Ret JNull
          end
     else Raise AttributeError,
     emit (EvRequest rq (Answer r)) st2).
Proof.
  cbn zeta. intros Hf Ha Ho Hr Hh Hj.
  rewrite upload_file_run. cbn zeta.
  rewrite Hf, Ha. cbn [negb]. rewrite Ho. cbn [negb]. rewrite Hr.
  cbn [request_result]. rewrite Hh, Hj.
  destruct j as [| | | | | |kv]; try reflexivity.
  cbn [py_get]. rewrite upload_log_fields_shape.
  destruct (well_shaped_upload (JObj kv)); reflexivity.
Qed.

Lemma upload_answer_shape_decides_witness :
  upload_file odd_world "a.md" demo_state
  = (Raise AttributeError,
     emit (EvRequest (upload_request (self demo_state) "a.md")
             (json_answer null_meta_upload))
       (emit (EvOpen "a.md" true) (emit (EvIsFile "a.md" true) demo_state))) /\
  upload_file demo_world "a.md" demo_state
  = (Ret (JStr "f1"),
     emit (EvRequest (upload_request (self demo_state) "a.md")
             (json_answer uploaded))
       (emit (EvOpen "a.md" true) (emit (EvIsFile "a.md" true) demo_state))).
Proof.
  split.
  - exact (upload_answer_shape_decides odd_world "a.md" demo_state
             (mkResponse 200 (Some "application/json") (Some null_meta_upload))
             null_meta_upload eq_refl eq_refl eq_refl eq_refl eq_refl eq_refl).
  - exact (upload_answer_shape_decides demo_world "a.md" demo_state
             (mkResponse 200 (Some "application/json") (Some uploaded))
             uploaded eq_refl eq_refl eq_refl eq_refl eq_refl eq_refl).
Defined.

(* ================================================================== *)
(** ** More on linking *)

Lemma sleeps_app t1 t2 : sleeps (t1 ++ t2) = (sleeps t1 + sleeps t2)%nat.
Proof. unfold sleeps. now rewrite filter_app, length_app. Qed.

Lemma count_below m s n :
  List.length (filter (fun i => (i <? m)%nat) (seq s n)) = (Nat.min (s + n) m - s)%nat.
Proof.
  revert s. induction n as [|n IH]; intros s; cbn [seq filter].
  - cbn [List.length]. lia.
  - destruct (s <? m)%nat eqn:E.
    + apply Nat.ltb_lt in E. cbn [List.length]. rewrite IH. lia.
    + apply Nat.ltb_ge in E. rewrite IH. lia.
Qed.

Lemma waits_in_range retries :
  List.length (filter (fun a => (a <? retries - 1)%Z) (range retries))
  = Z.to_nat (retries - 1).
Proof.
  unfold range. rewrite filter_map_comm, length_map.
  rewrite (filter_ext _ (fun i => (i <? Z.to_nat (retries - 1))%nat)).
  - rewrite count_below. lia.
  - intros i. destruct (Z.of_nat i <? retries - 1)%Z eqn:E1;
      destruct (i <? Z.to_nat (retries - 1))%nat eqn:E2; try reflexivity.
    + apply Z.ltb_lt in E1. apply Nat.ltb_ge in E2. lia.
    + apply Z.ltb_ge in E1. apply Nat.ltb_lt in E2. lia.
Qed.

Lemma add_loop_outcome w knowledge_id payload retries retry_delay todo st linked st' :
  let rq := mkRequest POST (api_endpoint (self st) ++ link_endpoint w knowledge_id)
                      (headers (self st)) (Json payload) in
  add_loop w knowledge_id payload retries retry_delay todo st = (Ret linked, st') ->
  exists more,
    st' = mkState (self st) (trace st ++ more) /\
    if linked then
      exists before o r,
        more = before ++ [EvRequest rq o] /\ request_result o = Some r /\
        forall rq' o', In (EvRequest rq' o') before -> request_result o' = None
    else
      (forall rq' o', In (EvRequest rq' o') more -> request_result o' = None) /\
      attempts more = List.length todo /\
      sleeps more
      = List.length (filter (fun a => (a <? retries - 1)%Z) todo).
Proof.
  cbn zeta. revert st. induction todo as [|a rest IH]; intros st.
  - simpl. unfold ret. intros H; inversion H; subst.
    exists []. rewrite app_nil_r. split; [now destruct st'|].
    repeat split. intros rq' o' [].
  - rewrite add_loop_cons. cbn zeta.
    set (rq := mkRequest POST _ _ _).
    set (o := w_request w (trace st) rq).
    destruct (request_result o) as [r|] eqn:Er.
    + intros H; inversion H; subst. exists [EvRequest rq o].
      split; [reflexivity|]. exists [], o, r. repeat split; auto.
      intros rq' o' [].
    + cbn [filter]. destruct (a <? retries - 1)%Z.
      * intros H. apply IH in H. destruct H as (more & -> & Hcase).
        cbn [emit self trace].
        exists (EvRequest rq o :: EvSleep retry_delay :: more).
        split; [now rewrite <- !app_assoc|].
        destruct linked.
        -- destruct Hcase as (before & o1 & r1 & -> & Hr1 & Hbefore).
           exists (EvRequest rq o :: EvSleep retry_delay :: before), o1, r1.
           repeat split; auto.
           intros rq' o' [H|[H|H]]; [inversion H; now subst|discriminate|eauto].
        -- destruct Hcase as (Hall & Hn & Hs). repeat split.
           ++ intros rq' o' [H|[H|H]]; [inversion H; now subst|discriminate|eauto].
           ++ change (attempts (EvRequest rq o :: EvSleep retry_delay :: more))
                with (S (attempts more)). cbn [List.length]. lia.
           ++ change (sleeps (EvRequest rq o :: EvSleep retry_delay :: more))
                with (S (sleeps more)). cbn [List.length]. lia.
      * intros H. apply IH in H. destruct H as (more & -> & Hcase).
        cbn [emit self trace].
        exists (EvRequest rq o :: more).
        split; [now rewrite <- !app_assoc|].
        destruct linked.
        -- destruct Hcase as (before & o1 & r1 & -> & Hr1 & Hbefore).
           exists (EvRequest rq o :: before), o1, r1.
           repeat split; auto.
           intros rq' o' [H|H]; [inversion H; now subst|eauto].
        -- destruct Hcase as (Hall & Hn & Hs). repeat split.
           ++ intros rq' o' [H|H]; [inversion H; now subst|eauto].
           ++ change (attempts (EvRequest rq o :: more)) with (S (attempts more)).
              cbn [List.length]. lia.
           ++ change (sleeps (EvRequest rq o :: more)) with (sleeps more). exact Hs.
Qed.

(** X8. With [retries <= 0] the loop body never runs:
    [add_file_to_knowledge] returns [False] at once and sends nothing. *)
Theorem link_without_attempts w knowledge_id file_id retries retry_delay st :
  (retries <= 0)%Z ->
  add_file_to_knowledge w knowledge_id file_id retries retry_delay st
  = (Ret false, st).
Proof.
  intros H. unfold add_file_to_knowledge, range.
  replace (Z.to_nat retries) with 0%nat by lia. reflexivity.
Qed.

Lemma link_without_attempts_witness :
  add_file_to_knowledge demo_world (JStr "k1") (JStr "f1") 0 5 demo_state
  = (Ret false, demo_state).
Proof.
  apply (link_without_attempts demo_world (JStr "k1") (JStr "f1") 0 5 demo_state).
  lia.
Defined.

(** X9. What the result of [add_file_to_knowledge] says about its attempts.
    [True]: the last thing it did was a link request that did not fail, and
    every request before that failed.  [False]: every request failed, there
    were exactly [retries] of them (none for [retries <= 0]) and
    [retries - 1] waits. *)
Theorem link_result_reflects_attempts w knowledge_id file_id retries retry_delay
    st linked st' :
  add_file_to_knowledge w knowledge_id file_id retries retry_delay st
  = (Ret linked, st') ->
  exists more,
    st' = mkState (self st) (trace st ++ more) /\
    if linked then
      exists before o r,
        more = before ++ [EvRequest (link_request w (self st) knowledge_id file_id) o] /\
        request_result o = Some r /\
        forall rq' o', In (EvRequest rq' o') before -> request_result o' = None
    else
      (forall rq' o', In (EvRequest rq' o') more -> request_result o' = None) /\
      attempts more = Z.to_nat retries /\
      sleeps more = Z.to_nat (retries - 1).
Proof.
  unfold add_file_to_knowledge. intros H.
  apply add_loop_outcome in H. destruct H as (more & Hst & Hcase).
  exists more. split; [exact Hst|].
  destruct linked; [exact Hcase|].
  now rewrite length_range, waits_in_range in Hcase.
Qed.

Lemma link_result_reflects_attempts_witness :
  (exists more,
     snd (add_file_to_knowledge demo_world (JStr "k1") (JStr "f1") 3 5 demo_state)
     = mkState (self demo_state) (trace demo_state ++ more) /\
     exists before o r,
       more = before
              ++ [EvRequest (link_request demo_world (self demo_state)
                               (JStr "k1") (JStr "f1")) o] /\
       request_result o = Some r /\
       forall rq' o', In (EvRequest rq' o') before -> request_result o' = None) /\
  (exists more,
     snd (add_file_to_knowledge down_world (JStr "k1") (JStr "f1") 4 5 demo_state)
     = mkState (self demo_state) (trace demo_state ++ more) /\
     (forall rq' o', In (EvRequest rq' o') more -> request_result o' = None) /\
     attempts more = Z.to_nat 4 /\
     sleeps more = Z.to_nat (4 - 1)).
Proof.
  split.
  - apply (link_result_reflects_attempts demo_world (JStr "k1") (JStr "f1") 3 5
             demo_state true). reflexivity.
  - apply (link_result_reflects_attempts down_world (JStr "k1") (JStr "f1") 4 5
             demo_state false). reflexivity.
Defined.

(* ================================================================== *)
(** ** More on creating a collection *)

Lemma attempts_exchange w h rqs : attempts (exchange w h rqs) = List.length rqs.
Proof.
  revert h. induction rqs as [|rq rest IH]; intros h; [reflexivity|].
  cbn [exchange]. change (attempts (?ev :: ?t)) with (S (attempts t)) at 1.
  now rewrite IH.
Qed.

Lemma create_loop_raises w payload endpoints st k endpoint ev j e :
  let evs := exchange w (trace st)
               (map (create_request (self st) payload) endpoints) in
  nth_error endpoints k = Some endpoint ->
  Forall (fun ev => parsed_ev ev = None) (firstn k evs) ->
  nth_error evs k = Some ev ->
  parsed_ev ev = Some j ->
  py_get j "id" JNull = Raise e ->
  create_loop w payload endpoints st
  = (Raise AttributeError, mkState (self st) (trace st ++ firstn (S k) evs)).
Proof.
  revert st k. induction endpoints as [|e0 rest IH]; intros st k; cbn zeta.
  - destruct k; discriminate.
  - cbn [map exchange]. destruct k as [|k].
    + intros He _ Hev Hj Hv. cbn in He, Hev. inversion He; inversion Hev; subst.
      rewrite create_loop_cons. cbn zeta. simpl in Hj. rewrite Hj, Hv.
      now rewrite (py_get_raises _ _ _ _ Hv).
    + intros He Hpre Hev Hj Hv. cbn [nth_error] in He, Hev.
      cbn [firstn] in Hpre. inversion Hpre as [|x xs Hx Hxs]; subst.
      rewrite create_loop_cons. cbn zeta. simpl in Hx. rewrite Hx.
      rewrite (IH _ k); cbn [emit self trace]; try eassumption.
      cbn [firstn]. now rewrite <- app_assoc.
Qed.

(** X10. When no create candidate yields JSON, [create_knowledge_collection]
    returns [None] after exactly four POSTs and leaves the client as it
    was.  With no endpoint discovered the first two of the four go to the
    same path, [/api/v1/workspace/knowledge/create]. *)
Theorem create_gives_up_after_four_posts w name description st :
  let c := self st in
  let payload := create_payload name description in
  let tries := exchange w (trace st)
                 (map (create_request c payload) (create_endpoints c)) in
  Forall (fun ev => parsed_ev ev = None) tries ->
  create_knowledge_collection w name description st
  = (Ret JNull, mkState c (trace st ++ tries)) /\
  attempts tries = 4%nat /\
  (discovered c = false ->
   exists o1 o2 rest,
     tries = EvRequest (create_request c payload "/api/v1/workspace/knowledge/create") o1
             :: EvRequest (create_request c payload "/api/v1/workspace/knowledge/create") o2
             :: rest).
Proof.
  cbn zeta. intros Hall. split; [|split].
  - unfold create_knowledge_collection, bind, get_self.
    now apply create_loop_exhausted.
  - rewrite attempts_exchange, length_map. reflexivity.
  - intros Hd. unfold create_endpoints.
    replace (match _knowledge_endpoint (self st) with
             | Some e => if discovered (self st) then e
                         else "/api/v1/workspace/knowledge"
             | None => "/api/v1/workspace/knowledge"
             end) with "/api/v1/workspace/knowledge"
      by (rewrite Hd; now destruct (_knowledge_endpoint (self st))).
    cbn [map exchange]. eauto.
Qed.

Lemma create_gives_up_after_four_posts_witness :
  create_knowledge_collection down_world "new" "" demo_state
  = (Ret JNull,
     mkState demo_client
       (trace demo_state
        ++ exchange down_world (trace demo_state)
             (map (create_request demo_client (create_payload "new" ""))
                  (create_endpoints demo_client)))).
Proof.
  apply (create_gives_up_after_four_posts down_world "new" "" demo_state).
  repeat constructor.
Defined.

(** X11. When the first create candidate that yields JSON answers anything
    but an object (a list, a string, [null]), [create_knowledge_collection]
    raises [AttributeError]; nothing is cached and no later candidate is
    tried. *)
Theorem create_raises_on_non_object_answer w name description st k endpoint ev j e :
  let c := self st in
  let tries := exchange w (trace st)
                 (map (create_request c (create_payload name description))
                      (create_endpoints c)) in
  nth_error (create_endpoints c) k = Some endpoint ->
  Forall (fun ev => parsed_ev ev = None) (firstn k tries) ->
  nth_error tries k = Some ev ->
  parsed_ev ev = Some j ->
  py_get j "id" JNull = Raise e ->
  create_knowledge_collection w name description st
  = (Raise AttributeError, mkState c (trace st ++ firstn (S k) tries)).
Proof.
  cbn zeta. intros He Hpre Hev Hj Hv.
  unfold create_knowledge_collection, bind, get_self.
  now apply (create_loop_raises w _ _ st k endpoint ev j e).
Qed.

Lemma create_raises_on_non_object_answer_witness :
  create_knowledge_collection odd_world "new" "" demo_state
  = (Raise AttributeError,
     mkState demo_client
       [EvRequest (create_request demo_client (create_payload "new" "")
                     "/api/v1/workspace/knowledge/create")
                  (json_answer (JArr []))]).
Proof.
  apply (create_raises_on_non_object_answer odd_world "new" "" demo_state 0%nat
           "/api/v1/workspace/knowledge/create"
           (EvRequest (create_request demo_client (create_payload "new" "")
                         "/api/v1/workspace/knowledge/create")
                      (json_answer (JArr [])))
           (JArr []) AttributeError); try reflexivity.
  constructor.
Defined.

(* ================================================================== *)
(** ** What a batch keeps *)

Lemma list_loop_cache w endpoints st :
  self (snd (list_loop w endpoints st)) = self st \/
  exists e, In e endpoints /\
            self (snd (list_loop w endpoints st)) = set_knowledge_endpoint (self st) e.
Proof.
  revert st. induction endpoints as [|e rest IH]; intros st.
  - now left.
  - rewrite list_loop_cons. cbn zeta. destruct (parsed _).
    + right. exists e. split; [now left|reflexivity].
    + destruct (IH (emit (EvRequest (list_request (self st) e)
                            (w_request w (trace st) (list_request (self st) e))) st))
        as [H|(e' & Hin & H)].
      * left. exact H.
      * right. exists e'. split; [now right|exact H].
Qed.

Lemma create_loop_cache w payload endpoints st :
  self (snd (create_loop w payload endpoints st)) = self st \/
  (discovered (self st) = false /\
   exists e, In e endpoints /\
             self (snd (create_loop w payload endpoints st))
             = set_knowledge_endpoint (self st) (PyStr.replace "/create" "" e)).
Proof.
  revert st. induction endpoints as [|e rest IH]; intros st.
  - now left.
  - rewrite create_loop_cons. cbn zeta. destruct (parsed _) as [j|].
    + destruct (py_get j "id" JNull); [|now left].
      destruct (discovered (self st)) eqn:Ed; [now left|].
      right. split; [reflexivity|]. exists e. split; [now left|reflexivity].
    + destruct (IH (emit (EvRequest (create_request (self st) payload e)
                            (w_request w (trace st)
                               (create_request (self st) payload e))) st))
        as [H|(Hd & e' & Hin & H)].
      * left. exact H.
      * right. split; [exact Hd|]. exists e'. split; [now right|exact H].
Qed.

Lemma cache_known_set c e : In e list_endpoints -> cache_known (set_knowledge_endpoint c e).
Proof. intros H. right. exists e. split; [exact H|reflexivity]. Qed.

Lemma lookup_keeps_cache_known w name st :
  cache_known (self st) ->
  cache_known (self (snd (get_knowledge_collection_id w name st))).
Proof.
  intros Hc. rewrite get_knowledge_collection_id_run.
  unfold list_knowledge_collections.
  destruct (list_loop_cache w list_endpoints st) as [H|(e & Hin & H)];
    destruct (list_loop w list_endpoints st) as [[j|x] st1]; cbn [snd] in *;
    rewrite H; auto using cache_known_set.
Qed.

Lemma create_keeps_cache_known w name description st :
  cache_known (self st) ->
  cache_known (self (snd (create_knowledge_collection w name description st))).
Proof.
  intros Hc. unfold create_knowledge_collection, bind, get_self.
  destruct (create_loop_cache w
              (JObj [("name", JStr name); ("description", JStr description)])
              (create_endpoints (self st)) st) as [H|(Hd & e & Hin & H)];
    rewrite H; [exact Hc|].
  apply cache_known_set. now apply (create_candidate_base (self st)).
Qed.

Lemma upload_file_requests w file_path st :
  exists more,
    snd (upload_file w file_path st) = mkState (self st) (trace st ++ more) /\
    forall rq o, In (EvRequest rq o) more -> rq = upload_request (self st) file_path.
Proof.
  rewrite upload_file_run. cbn zeta.
  set (e1 := EvIsFile file_path _).
  set (e2 := EvOpen file_path _).
  set (e3 := EvRequest _ _).
  assert (H1 : exists more, emit e1 st = mkState (self st) (trace st ++ more) /\
             forall rq o, In (EvRequest rq o) more ->
                          rq = upload_request (self st) file_path).
  { exists [e1]. split; [reflexivity|]. intros rq o [H|[]]. discriminate. }
  assert (H2 : exists more, emit e2 (emit e1 st) = mkState (self st) (trace st ++ more) /\
             forall rq o, In (EvRequest rq o) more ->
                          rq = upload_request (self st) file_path).
  { exists [e1; e2]. split; [unfold emit; simpl; now rewrite <- app_assoc|].
    intros rq o [H|[H|[]]]; discriminate. }
  assert (H3 : exists more, emit e3 (emit e2 (emit e1 st))
                            = mkState (self st) (trace st ++ more) /\
             forall rq o, In (EvRequest rq o) more ->
                          rq = upload_request (self st) file_path).
  { exists [e1; e2; e3]. split; [unfold emit; simpl; now rewrite <- !app_assoc|].
    intros rq o [H|[H|[H|[]]]]; try discriminate. now inversion H. }
  destruct (negb _); [exact H1|].
  destruct (negb (is_allowed_file file_path)); [exact H1|].
  destruct (negb _); [exact H2|].
  destruct (request_result _) as [r|]; [|exact H3].
  destruct (json_body r) as [j|]; [|exact H3].
  destruct (py_get j "id" JNull); [|exact H3].
  destruct (upload_log_fields j); exact H3.
Qed.

Lemma add_file_requests w knowledge_id file_id retries retry_delay st :
  exists linked more,
    add_file_to_knowledge w knowledge_id file_id retries retry_delay st
    = (Ret linked, mkState (self st) (trace st ++ more)) /\
    forall rq o, In (EvRequest rq o) more ->
                 rq = link_request w (self st) knowledge_id file_id.
Proof.
  unfold add_file_to_knowledge.
  destruct (add_loop_trace w knowledge_id (JObj [("file_id", file_id)])
              retries retry_delay (range retries) st)
    as (b & more & Hrun & Hall & _).
  exists b, more. split; [exact Hrun|].
  intros rq o Hin. rewrite Forall_forall in Hall. exact (Hall _ Hin).
Qed.

(** The loop keeps the client, and sends upload and link requests only. *)
Lemma upload_loop_requests w knowledge_id file_paths results st :
  exists new,
    snd (upload_loop w knowledge_id file_paths results st)
    = mkState (self st) (trace st ++ new) /\
    forall rq o, In (EvRequest rq o) new ->
      (exists p, In p file_paths /\ rq = upload_request (self st) p) \/
      (exists file_id, rq = link_request w (self st) knowledge_id file_id).
Proof.
  revert results st. induction file_paths as [|p rest IH]; intros results st.
  - exists []. simpl. rewrite app_nil_r. split; [now destruct st|]. intros rq o [].
  - rewrite upload_loop_cons.
    destruct (upload_file_requests w p st) as (m1 & Hs1 & Hr1).
    destruct (upload_file w p st) as [[file_id|x] s1]; cbn [snd] in Hs1; subst s1.
    2:{ exists m1. split; [reflexivity|]. intros rq o Hin. left. exists p.
        split; [now left|eauto]. }
    assert (Hstep : forall res s m, 
               s = mkState (self st) (trace st ++ m) ->
               (forall rq o, In (EvRequest rq o) m ->
                  (exists p0, In p0 (p :: rest) /\ rq = upload_request (self st) p0) \/
                  (exists fid, rq = link_request w (self st) knowledge_id fid)) ->
               exists new,
                 snd (upload_loop w knowledge_id rest res s)
                 = mkState (self st) (trace st ++ new) /\
                 forall rq o, In (EvRequest rq o) new ->
                   (exists p0, In p0 (p :: rest) /\ rq = upload_request (self st) p0) \/
                   (exists fid, rq = link_request w (self st) knowledge_id fid)).
    { intros res s m -> Hm.
      destruct (IH res (mkState (self st) (trace st ++ m))) as (new & Hs & Hn).
      exists (m ++ new). rewrite Hs. cbn [self trace]. rewrite <- app_assoc.
      split; [reflexivity|]. intros rq o Hin. apply in_app_or in Hin.
      destruct Hin as [Hin|Hin]; [eauto|].
      destruct (Hn _ _ Hin) as [(p0 & Hp0 & ->)|(fid & ->)]; [left|right; eauto].
      exists p0. split; [now right|reflexivity]. }
    assert (Hm1 : forall rq o, In (EvRequest rq o) m1 ->
               (exists p0, In p0 (p :: rest) /\ rq = upload_request (self st) p0) \/
               (exists fid, rq = link_request w (self st) knowledge_id fid)).
    { intros rq o Hin. left. exists p. split; [now left|eauto]. }
    destruct (truthy file_id).
    + destruct (add_file_requests w knowledge_id file_id default_retries
                  default_retry_delay
                  (emit (EvSleep settle_delay) (mkState (self st) (trace st ++ m1))))
        as (linked & m2 & Hadd & Hr2).
      rewrite Hadd. cbn [emit self trace] in *.
      assert (Hm2 : forall rq o, In (EvRequest rq o) (m1 ++ [EvSleep settle_delay] ++ m2) ->
                 (exists p0, In p0 (p :: rest) /\ rq = upload_request (self st) p0) \/
                 (exists fid, rq = link_request w (self st) knowledge_id fid)).
      { intros rq o Hin. apply in_app_or in Hin. destruct Hin as [Hin|Hin]; [eauto|].
        destruct Hin as [Hin|Hin]; [discriminate|]. right. eauto. }
      destruct linked; eapply Hstep; try exact Hm2;
        now rewrite <- !app_assoc.
    + eapply Hstep; [reflexivity|exact Hm1].
Qed.

Lemma upload_request_config c c' p :
  same_config c c' -> upload_request c' p = upload_request c p.
Proof. intros (H1 & _ & _ & H2). unfold upload_request. now rewrite H1, H2. Qed.

Lemma link_request_config w c c' knowledge_id file_id :
  same_config c c' ->
  link_request w c' knowledge_id file_id = link_request w c knowledge_id file_id.
Proof. intros (H1 & _ & H2 & _). unfold link_request. now rewrite H1, H2. Qed.

Lemma collection_traffic_client_request c name description rq o :
  collection_traffic c name description (EvRequest rq o) -> client_request c rq.
Proof.
  simpl. intros [(e & _ & ->)|(base & ->)]; (split; [eexists; reflexivity|reflexivity]).
Qed.

(** Every request of a batch is built by the client it started with. *)
Lemma batch_requests w knowledge_name file_paths create_if_missing description st :
  exists c' new,
    snd (upload_files_to_knowledge w knowledge_name file_paths create_if_missing
           description st)
    = mkState c' (trace st ++ new) /\
    same_config (self st) c' /\
    (cache_known (self st) -> cache_known c') /\
    forall rq o, In (EvRequest rq o) new -> client_request (self st) rq.
Proof.
  rewrite upload_files_to_knowledge_run. cbn zeta.
  destruct (lookup_traffic w knowledge_name description st)
    as (r1 & c1 & new1 & Hrun1 & Hc1 & Hall1).
  pose proof (lookup_keeps_cache_known w knowledge_name st) as Hk1.
  rewrite Hrun1 in *. cbn [snd self] in Hk1.
  assert (Hreq1 : forall rq o, In (EvRequest rq o) new1 -> client_request (self st) rq).
  { intros rq o Hin. rewrite Forall_forall in Hall1.
    eapply collection_traffic_client_request. exact (Hall1 _ Hin). }
  assert (Hloop : forall kid c m,
             same_config (self st) c ->
             (cache_known (self st) -> cache_known c) ->
             (forall rq o, In (EvRequest rq o) m -> client_request (self st) rq) ->
             exists c' new,
               snd (upload_loop w kid file_paths (mkBatch 0 0 (len file_paths) [])
                      (mkState c (trace st ++ m)))
               = mkState c' (trace st ++ new) /\
               same_config (self st) c' /\
               (cache_known (self st) -> cache_known c') /\
               forall rq o, In (EvRequest rq o) new -> client_request (self st) rq).
  { intros kid c m Hc Hk Hm.
    destruct (upload_loop_requests w kid file_paths (mkBatch 0 0 (len file_paths) [])
                (mkState c (trace st ++ m))) as (new & Hs & Hn).
    exists c, (m ++ new). rewrite Hs. cbn [self trace] in *. rewrite <- app_assoc.
    split; [reflexivity|]. split; [exact Hc|]. split; [exact Hk|].
    intros rq o Hin. apply in_app_or in Hin. destruct Hin as [Hin|Hin]; [eauto|].
    destruct (Hn _ _ Hin) as [(p & _ & ->)|(fid & ->)].
    - rewrite (upload_request_config _ _ p Hc).
      split; [eexists; reflexivity|]. simpl. split; reflexivity.
    - rewrite (link_request_config w _ _ kid fid Hc).
      split; [eexists; reflexivity|reflexivity]. }
  destruct r1 as [found_id|x]; [|exists c1, new1; split; [reflexivity|]; split; [|split]; auto].
  destruct (truthy found_id); [now apply Hloop|].
  destruct create_if_missing; [|exists c1, new1; split; [reflexivity|]; split; [|split]; auto].
  destruct (creation_traffic w knowledge_name description
              (mkState c1 (trace st ++ new1)))
    as (r2 & c2 & new2 & Hrun2 & Hc2 & Hall2).
  pose proof (create_keeps_cache_known w knowledge_name description
                (mkState c1 (trace st ++ new1))) as Hk2.
  rewrite Hrun2 in *. cbn [snd self trace] in *.
  assert (Hc12 : same_config (self st) c2).
  { destruct Hc1 as (A1 & A2 & A3 & A4), Hc2 as (B1 & B2 & B3 & B4).
    repeat split; congruence. }
  assert (Hreq2 : forall rq o, In (EvRequest rq o) (new1 ++ new2) ->
                               client_request (self st) rq).
  { intros rq o Hin. apply in_app_or in Hin. destruct Hin as [Hin|Hin]; [eauto|].
    rewrite Forall_forall in Hall2.
    eapply collection_traffic_client_request.
    eapply collection_traffic_config; [exact Hc1|]. exact (Hall2 _ Hin). }
  rewrite <- app_assoc in *.
  destruct r2 as [created_id|x]; [|exists c2, (new1 ++ new2); split; [reflexivity|]; split; [|split]; auto].
  destruct (truthy created_id); [|exists c2, (new1 ++ new2); split; [reflexivity|]; split; [|split]; auto].
  apply Hloop; auto.
Qed.

(** X12. The cached endpoint is only ever absent or one of the three
    listing paths: this holds for a new client and is kept by a lookup, by
    a create and by a whole batch. *)
Theorem cached_endpoint_is_a_listing_path w st :
  (forall e key, cache_known (init e key)) /\
  (cache_known (self st) ->
   (forall name,
      cache_known (self (snd (get_knowledge_collection_id w name st)))) /\
   (forall name description,
      cache_known (self (snd (create_knowledge_collection w name description st)))) /\
   (forall name file_paths create_if_missing description,
      cache_known
        (self (snd (upload_files_to_knowledge w name file_paths create_if_missing
                      description st))))).
Proof.
  split; [intros; now left|]. intros Hc. split; [|split].
  - intros name. now apply lookup_keeps_cache_known.
  - intros name description. now apply create_keeps_cache_known.
  - intros name file_paths create_if_missing description.
    destruct (batch_requests w name file_paths create_if_missing description st)
      as (c' & new & Hs & _ & Hk & _).
    rewrite Hs. cbn [self]. auto.
Qed.

Lemma cached_endpoint_is_a_listing_path_witness :
  cache_known
    (self (snd (upload_files_to_knowledge demo_world "Docs" ["a.md"] true ""
                  demo_state))).
Proof.
  apply (proj2 (cached_endpoint_is_a_listing_path demo_world demo_state)).
  left. reflexivity.
Defined.

(** X13. A batch never changes the endpoint, the key or the headers of the
    client, and for a client made by the constructor every request of the
    batch goes to a URL under the stripped endpoint and carries the bearer
    token; the request that carries a file has no [Content-Type] header of
    the client's, every other request has [application/json]. *)
Theorem batch_requests_carry_the_token w e key knowledge_name file_paths
    create_if_missing description st :
  same_config (init e key) (self st) ->
  exists c' new,
    snd (upload_files_to_knowledge w knowledge_name file_paths create_if_missing
           description st)
    = mkState c' (trace st ++ new) /\
    same_config (init e key) c' /\
    forall rq o, In (EvRequest rq o) new ->
      (exists path, rq_url rq = (PyStr.rstrip "/" e ++ path)%string) /\
      header (rq_headers rq) "Authorization" = Some ("Bearer " ++ key)%string /\
      header (rq_headers rq) "Content-Type"
      = match rq_body rq with
        | Files _ _ _ => None
        | _ => Some "application/json"
        end.
Proof.
  intros Hc.
  destruct (batch_requests w knowledge_name file_paths create_if_missing
              description st) as (c' & new & Hs & Hc' & _ & Hreq).
  exists c', new. split; [exact Hs|]. split.
  { destruct Hc as (A1 & A2 & A3 & A4), Hc' as (B1 & B2 & B3 & B4).
    repeat split; congruence. }
  intros rq o Hin. destruct (Hreq _ _ Hin) as [(path & Hurl) Hh].
  destruct Hc as (A1 & _ & A3 & A4). rewrite A1 in Hurl. split; [eauto|].
  destruct (rq_body rq); try (rewrite Hh, A3; split; reflexivity).
  destruct Hh as [_ Hh]. rewrite Hh, A4. split; reflexivity.
Qed.

Lemma batch_requests_carry_the_token_witness :
  exists c' new,
    snd (upload_files_to_knowledge demo_world "Docs" ["a.md"] false ""
           demo_state_discovered)
    = mkState c' (trace demo_state_discovered ++ new) /\
    same_config (init "http://h/" "secret") c' /\
    forall rq o, In (EvRequest rq o) new ->
      (exists path, rq_url rq = (PyStr.rstrip "/" "http://h/" ++ path)%string) /\
      header (rq_headers rq) "Authorization" = Some ("Bearer " ++ "secret")%string /\
      header (rq_headers rq) "Content-Type"
      = match rq_body rq with
        | Files _ _ _ => None
        | _ => Some "application/json"
        end.
Proof.
  apply (batch_requests_carry_the_token demo_world "http://h/" "secret" "Docs"
           ["a.md"] false "" demo_state_discovered).
  repeat split.
Defined.

(** X14. In every result of a batch the error messages account for the
    failures in one of two ways: one message per failed file, or, when no
    collection could be resolved, a single message for all the files,
    which all count as failed. *)
Theorem batch_errors_match_failures w knowledge_name file_paths create_if_missing
    description st r st' :
  upload_files_to_knowledge w knowledge_name file_paths create_if_missing
    description st = (Ret r, st') ->
  failed r = len (errors r) \/
  (success r = 0%Z /\ failed r = len file_paths /\ exists message, errors r = [message]).
Proof.
  rewrite upload_files_to_knowledge_run. cbn zeta.
  destruct (get_knowledge_collection_id w knowledge_name st)
    as [[found_id|e] st1]; [|discriminate].
  assert (Hloop : forall kid s,
             upload_loop w kid file_paths (mkBatch 0 0 (len file_paths) []) s
             = (Ret r, st') -> failed r = len (errors r)).
  { intros kid s H. apply upload_loop_grows in H.
    destruct H as (_ & _ & _ & more & He & Hf).
    cbn [errors failed app] in He, Hf. rewrite He, Hf. lia. }
  destruct (truthy found_id); [intros H; left; eapply Hloop; exact H|].
  destruct create_if_missing.
  - destruct (create_knowledge_collection w knowledge_name description st1)
      as [[created_id|e] st2]; [|discriminate].
    destruct (truthy created_id); [intros H; left; eapply Hloop; exact H|].
    intros H; inversion H; subst. right. cbn. eauto.
  - intros H; inversion H; subst. right. cbn. eauto.
Qed.

Lemma batch_errors_match_failures_witness :
  (1 = len ["Failed to upload gone.md"])%Z \/
  (2%Z = 0%Z /\ 1%Z = len ["a.md"; "gone.md"; "b.txt"] /\
   exists message, ["Failed to upload gone.md"] = [message]).
Proof.
  exact (batch_errors_match_failures demo_world "Docs" ["a.md"; "gone.md"; "b.txt"]
           false "" demo_state
           (mkBatch 2 1 3 ["Failed to upload gone.md"])
           (snd (upload_files_to_knowledge demo_world "Docs"
                   ["a.md"; "gone.md"; "b.txt"] false "" demo_state))
           eq_refl).
Defined.

(** X15. A listing of another shape makes the lookup raise instead of
    return: an object with at least one key, or a list whose first item
    without the queried name is not an object, gives [AttributeError]; a
    number, a boolean or [null] gives [TypeError].  The batch passes the
    exception on before it touches any file. *)
Theorem lookup_raises_on_other_shapes w name st collections st1 :
  list_knowledge_collections w st = (Ret collections, st1) ->
  (forall k v kv,
     collections = JObj ((k, v) :: kv) ->
     get_knowledge_collection_id w name st = (Raise AttributeError, st1)) /\
  (forall before c after,
     collections = JArr (before ++ c :: after) ->
     Forall (fun b => exists n, py_get b "name" JNull = Ret n /\ n <> JStr name)
            before ->
     (forall kv, c <> JObj kv) ->
     get_knowledge_collection_id w name st = (Raise AttributeError, st1)) /\
  (py_iter collections = Raise TypeError ->
   get_knowledge_collection_id w name st = (Raise TypeError, st1)) /\
  (forall e file_paths create_if_missing description,
     get_knowledge_collection_id w name st = (Raise e, st1) ->
     upload_files_to_knowledge w name file_paths create_if_missing description st
     = (Raise e, st1)).
Proof.
  intros Hlist. rewrite get_knowledge_collection_id_run, Hlist.
  split; [|split; [|split]].
  - intros k v kv ->. reflexivity.
  - intros before c after -> Hb Hc. cbn [py_iter]. f_equal. clear Hlist.
    induction Hb as [|b before (n & Hn & Hne) _ IH]; simpl.
    + destruct c; try reflexivity. now destruct (Hc kv).
    + rewrite Hn. destruct (eq_str n name) eqn:E; [|exact IH].
      apply eq_str_true in E. contradiction.
  - intros ->. reflexivity.
  - intros e file_paths create_if_missing description H.
    rewrite upload_files_to_knowledge_run. cbn zeta.
    rewrite get_knowledge_collection_id_run, Hlist.
    cbn beta iota in H |- *. inversion H as [H1]. rewrite H1. reflexivity.
Qed.

Lemma lookup_raises_on_other_shapes_witness :
  get_knowledge_collection_id odd_world "Docs" demo_state
  = (Raise AttributeError, snd (list_knowledge_collections odd_world demo_state)).
Proof.
  apply (proj1 (lookup_raises_on_other_shapes odd_world "Docs" demo_state
                  (JObj [("items", docs_listing); ("total", JNum 3)])
                  (snd (list_knowledge_collections odd_world demo_state))
                  eq_refl)
           "items" docs_listing [("total", JNum 3)]).
  reflexivity.
Defined.

(* ================================================================== *)
(** ** Collecting files *)

Lemma leb_cons a s b t :
  String.leb (String a s) (String b t)
  = match Ascii.compare a b with
    | Eq => String.leb s t
    | Lt => true
    | Gt => false
    end.
Proof. unfold String.leb. simpl. destruct (Ascii.compare a b); reflexivity. Qed.

Lemma ascii_compare_refl a : Ascii.compare a a = Eq.
Proof. apply N.compare_refl. Qed.

Lemma str_le_trans a b c : str_le a b -> str_le b c -> str_le a c.
Proof.
  unfold str_le. revert b c. induction a as [|x a IH]; intros [|y b] [|z c];
    try reflexivity; try discriminate.
  rewrite !leb_cons.
  destruct (Ascii.compare x y) eqn:Exy; try discriminate;
    destruct (Ascii.compare y z) eqn:Eyz; try discriminate.
  - apply Ascii.compare_eq_iff in Exy, Eyz. subst.
    rewrite ascii_compare_refl. apply IH.
  - apply Ascii.compare_eq_iff in Exy. subst. now rewrite Eyz.
  - apply Ascii.compare_eq_iff in Eyz. subst. now rewrite Exy.
  - unfold Ascii.compare in *. rewrite N.compare_lt_iff in Exy, Eyz.
    assert (H : (N_of_ascii x < N_of_ascii z)%N) by lia.
    apply N.compare_lt_iff in H. now rewrite H.
Qed.

Lemma insert_perm x l : Permutation (Cli.insert x l) (x :: l).
Proof.
  induction l as [|y l IH]; simpl; [reflexivity|].
  destruct (String.leb x y); [reflexivity|].
  rewrite IH. apply perm_swap.
Qed.

Lemma sorted_perm l : Permutation (Cli.sorted l) l.
Proof.
  induction l as [|x l IH]; simpl; [reflexivity|].
  rewrite insert_perm. now constructor.
Qed.

Lemma insert_sorted x l : Sorted str_le l -> Sorted str_le (Cli.insert x l).
Proof.
  induction 1 as [|y l Hs IH Hd]; simpl.
  - repeat constructor.
  - destruct (String.leb x y) eqn:E.
    + constructor; [now constructor|]. now constructor.
    + constructor; [exact IH|].
      assert (Hyx : str_le y x).
      { destruct (String.leb_total x y) as [H|H]; [congruence|exact H]. }
      destruct Hd as [|z l Hyz]; simpl; [now constructor|].
      destruct (String.leb x z); now constructor.
Qed.

Lemma sorted_sorted l : Sorted str_le (Cli.sorted l).
Proof.
  induction l as [|x l IH]; simpl; [constructor|]. now apply insert_sorted.
Qed.

Lemma filter_perm {A} (f : A -> bool) l1 l2 :
  Permutation l1 l2 -> Permutation (filter f l1) (filter f l2).
Proof.
  induction 1 as [|x l1 l2 _ IH|x y l|l1 l2 l3 _ IH1 _ IH2]; simpl.
  - constructor.
  - destruct (f x); [now constructor|exact IH].
  - destruct (f x), (f y); try reflexivity. apply perm_swap.
  - now transitivity (filter f l2).
Qed.

(** Two ascending lists with the same elements are the same list. *)
Lemma ascending_unique l1 l2 :
  StronglySorted str_le l1 -> StronglySorted str_le l2 ->
  Permutation l1 l2 -> l1 = l2.
Proof.
  intros H1. revert l2. induction H1 as [|a l1 Hs1 IH Ha]; intros l2 H2 Hp.
  - apply Permutation_nil in Hp. now subst.
  - destruct H2 as [|b l2 Hs2 Hb].
    + apply Permutation_sym, Permutation_nil in Hp. discriminate.
    + assert (a = b).
      { assert (Ina : In a (b :: l2))
          by (eapply Permutation_in; [exact Hp|now left]).
        assert (Inb : In b (a :: l1))
          by (eapply Permutation_in; [apply Permutation_sym; exact Hp|now left]).
        destruct Ina as [->|Ina]; [reflexivity|].
        destruct Inb as [->|Inb]; [reflexivity|].
        rewrite Forall_forall in Ha, Hb.
        apply String.leb_antisym; [apply Ha, Inb|apply Hb, Ina]. }
      subst b. f_equal. apply IH; [exact Hs2|].
      eapply Permutation_cons_inv; exact Hp.
Qed.

Lemma sorted_order_independent l1 l2 :
  Permutation l1 l2 -> Cli.sorted l1 = Cli.sorted l2.
Proof.
  intros Hp. apply ascending_unique.
  - apply Sorted_StronglySorted; [exact str_le_trans|apply sorted_sorted].
  - apply Sorted_StronglySorted; [exact str_le_trans|apply sorted_sorted].
  - rewrite !sorted_perm. exact Hp.
Qed.

(** X16. [collect_files] raises [ValueError] exactly when the path does not
    exist or is not a directory.  Otherwise its result is in ascending
    string order and holds exactly the scanned entries that are regular
    files, each as often as the scan yields it. *)
Theorem collect_files_sorted_regular_files fs directory recursive :
  match Cli.collect_files fs directory recursive with
  | Cli.Collected files =>
      Cli.fs_exists fs directory = true /\
      Cli.fs_is_dir fs directory = true /\
      Sorted str_le files /\
      Permutation files
        (filter (Cli.fs_is_file fs)
           (if recursive then Cli.fs_rglob fs directory
            else Cli.fs_iterdir fs directory)) /\
      (forall p, In p files -> Cli.fs_is_file fs p = true)
  | Cli.ValueError message =>
      (Cli.fs_exists fs directory = false /\
       message = ("Directory does not exist: " ++ directory)%string) \/
      (Cli.fs_exists fs directory = true /\ Cli.fs_is_dir fs directory = false /\
       message = ("Path is not a directory: " ++ directory)%string)
  end.
Proof.
  unfold Cli.collect_files.
  destruct (Cli.fs_exists fs directory); cbn [negb]; [|now left].
  destruct (Cli.fs_is_dir fs directory); cbn [negb]; [|right; auto].
  repeat split.
  - apply sorted_sorted.
  - apply sorted_perm.
  - intros p Hin. eapply Permutation_in in Hin; [|apply sorted_perm].
    apply filter_In in Hin. tauto.
Qed.

(** X17. The result of [collect_files] does not depend on the order in
    which the directory is scanned: two file systems that agree on the
    tests and list the same entries in any order give the same result. *)
Theorem collect_files_ignores_scan_order fs fs' directory recursive :
  Cli.fs_exists fs' directory = Cli.fs_exists fs directory ->
  Cli.fs_is_dir fs' directory = Cli.fs_is_dir fs directory ->
  (forall p, Cli.fs_is_file fs' p = Cli.fs_is_file fs p) ->
  Permutation (Cli.fs_rglob fs directory) (Cli.fs_rglob fs' directory) ->
  Permutation (Cli.fs_iterdir fs directory) (Cli.fs_iterdir fs' directory) ->
  Cli.collect_files fs' directory recursive = Cli.collect_files fs directory recursive.
Proof.
  intros He Hd Hf Hr Hi. unfold Cli.collect_files. rewrite He, Hd.
  destruct (negb (Cli.fs_exists fs directory)); [reflexivity|].
  destruct (negb (Cli.fs_is_dir fs directory)); [reflexivity|].
  f_equal. apply sorted_order_independent.
  rewrite (filter_ext _ _ Hf). apply filter_perm.
  destruct recursive; now apply Permutation_sym.
Qed.

Lemma collect_files_ignores_scan_order_witness :
  Cli.collect_files (docs_fs docs_scan_2) "docs" true
  = Cli.collect_files (docs_fs docs_scan_1) "docs" true.
Proof.
  assert (Hp : Permutation docs_scan_1 docs_scan_2).
  { unfold docs_scan_1, docs_scan_2.
    apply Permutation_trans with
      (["docs/sub"; "docs/b.txt"; "docs/a.md"; "docs/sub/c.pdf"]);
      [apply perm_swap|].
    apply Permutation_trans with
      (["docs/sub"; "docs/b.txt"] ++ ["docs/a.md"; "docs/sub/c.pdf"]);
      [reflexivity|].
    apply Permutation_trans with
      (["docs/a.md"; "docs/sub/c.pdf"] ++ ["docs/sub"; "docs/b.txt"]);
      [apply Permutation_app_comm|].
    cbn [app]. apply perm_swap. }
  apply (collect_files_ignores_scan_order (docs_fs docs_scan_1) (docs_fs docs_scan_2)
           "docs" true); try reflexivity; exact Hp.
Defined.

(* ================================================================== *)
(** ** The command line *)

(** A path the allow-list turns away costs the loop one failure. *)
Lemma disallowed_counts_failed w knowledge_id file_paths p results st r st' :
  In p file_paths ->
  is_allowed_file p = false ->
  upload_loop w knowledge_id file_paths results st = (Ret r, st') ->
  (failed results + 1 <= failed r)%Z.
Proof.
  intros Hin Hno. revert results st.
  induction file_paths as [|q rest IH]; intros results st; [destruct Hin|].
  rewrite upload_loop_cons.
  destruct Hin as [->|Hin].
  - rewrite upload_file_run. cbn zeta. rewrite Hno. cbn [negb].
    replace (if negb (w_isfile w (trace st) p)
             then (Ret JNull, emit (EvIsFile p (w_isfile w (trace st) p)) st)
             else (Ret JNull, emit (EvIsFile p (w_isfile w (trace st) p)) st))
      with (Ret JNull, emit (EvIsFile p (w_isfile w (trace st) p)) st)
      by (now destruct (negb _)).
    cbn [truthy]. intros H. apply upload_loop_grows in H.
    cbn [count_failure failed] in H. lia.
  - destruct (upload_file w q st) as [[file_id|e] s1]; [|discriminate].
    destruct (truthy file_id).
    + destruct (add_file_to_knowledge _ _ _ _ _ _) as [[[|]|e] s2];
        [| |discriminate]; intros H; apply (IH Hin) in H;
        cbn [count_success count_failure failed] in H; lia.
    + intros H; apply (IH Hin) in H. cbn [count_failure failed] in H. lia.
Qed.

(** The counts of any result a batch returns. *)
Lemma batch_result_shape w knowledge_name file_paths create_if_missing
    description st r st' :
  upload_files_to_knowledge w knowledge_name file_paths create_if_missing
    description st = (Ret r, st') ->
  (success r + failed r = len file_paths)%Z /\
  total r = len file_paths /\
  (failed r = len (errors r) \/ failed r = len file_paths) /\
  (forall p, In p file_paths -> is_allowed_file p = false -> (1 <= failed r)%Z).
Proof.
  rewrite upload_files_to_knowledge_run. cbn zeta.
  destruct (get_knowledge_collection_id w knowledge_name st)
    as [[found_id|e] st1]; [|discriminate].
  assert (Hloop : forall kid s,
             upload_loop w kid file_paths (mkBatch 0 0 (len file_paths) []) s
             = (Ret r, st') ->
             (success r + failed r = len file_paths)%Z /\
             total r = len file_paths /\
             (failed r = len (errors r) \/ failed r = len file_paths) /\
             (forall p, In p file_paths -> is_allowed_file p = false ->
                        (1 <= failed r)%Z)).
  { intros kid s H. pose proof H as H'. apply upload_loop_grows in H.
    destruct H as (Ht & Hs & _ & more & He & Hf).
    cbn [errors failed success total app] in *. repeat split; try lia.
    - left. rewrite He, Hf. lia.
    - intros p Hin Hno.
      pose proof (disallowed_counts_failed _ _ _ _ _ _ _ _ Hin Hno H') as Hc.
      cbn [failed] in Hc. lia. }
  assert (Hearly : forall m s,
             (Ret (all_failed file_paths m), s) = (Ret r, st') ->
             (success r + failed r = len file_paths)%Z /\
             total r = len file_paths /\
             (failed r = len (errors r) \/ failed r = len file_paths) /\
             (forall p, In p file_paths -> is_allowed_file p = false ->
                        (1 <= failed r)%Z)).
  { intros m s H. inversion H; subst. cbn [all_failed success failed total errors].
    repeat split; try lia; auto.
    intros p Hin _. destruct file_paths; [destruct Hin|].
    unfold len. cbn [List.length]. lia. }
  destruct (truthy found_id); [apply Hloop|].
  destruct create_if_missing; [|apply Hearly].
  destruct (create_knowledge_collection w knowledge_name description st1)
    as [[created_id|e] st2]; [|discriminate].
  destruct (truthy created_id); [apply Hloop|apply Hearly].
Qed.

(** X18. Exit code 0 means what it says.  Either no file was found and
    nothing was sent or printed, or the batch returned a result in which
    every collected file succeeded: [failed = 0], [success = total] is the
    number of files, there is no error message, and the summary of that
    result was printed. *)
Theorem main_exit_zero_means_all_uploaded fs w args :
  Cli.exit_code (Cli.main fs w args) = 0%Z ->
  exists key files,
    Cli.api_key args = Some key /\ key <> "" /\
    Cli.has_http_scheme (Cli.endpoint args) = true /\
    Cli.collect_files fs (Cli.path args) (Cli.recursive args) = Cli.Collected files /\
    ((files = [] /\ Cli.main fs w args = Cli.exit 0) \/
     exists r st,
       upload_files_to_knowledge w (Cli.knowledge args) files (Cli.create args)
         (Cli.description args) (mkState (init (Cli.endpoint args) key) [])
       = (Ret r, st) /\
       failed r = 0%Z /\ success r = len files /\ total r = len files /\
       errors r = [] /\
       Cli.main fs w args = Cli.mkRun 0 (Cli.summary r) (trace st)).
Proof.
  unfold Cli.main.
  destruct (Cli.api_key args) as [key|]; [|discriminate].
  destruct (String.eqb key "") eqn:Ek; [discriminate|].
  destruct (Cli.has_http_scheme (Cli.endpoint args)) eqn:Es; cbn [negb];
    [|discriminate].
  destruct (Cli.collect_files fs (Cli.path args) (Cli.recursive args))
    as [files|m]; [|discriminate].
  intros H. exists key, files.
  split; [reflexivity|]. split; [now apply String.eqb_neq|].
  split; [reflexivity|]. split; [reflexivity|].
  destruct files as [|f files]; [left; split; reflexivity|]. right.
  destruct (upload_files_to_knowledge w (Cli.knowledge args) (f :: files)
              (Cli.create args) (Cli.description args)
              (mkState (init (Cli.endpoint args) key) []))
    as [[r|e] st] eqn:Erun; [|discriminate].
  cbn [Cli.exit_code] in H.
  destruct (failed r >? 0)%Z eqn:Ef; [discriminate|].
  apply batch_result_shape in Erun. destruct Erun as (Hsum & Htot & Hshape & _).
  assert (Hpos : (0 < len (f :: files))%Z) by (unfold len; cbn [List.length]; lia).
  assert (Hlen : (0 <= len (errors r))%Z) by (unfold len; lia).
  assert (Hf0 : failed r = 0%Z) by lia.
  exists r, st. split; [reflexivity|]. split; [exact Hf0|].
  split; [lia|]. split; [exact Htot|]. split; [|reflexivity].
  destruct Hshape as [Hs|Hs]; [|lia].
  destruct (errors r); [reflexivity|]. unfold len in Hs. cbn [List.length] in Hs. lia.
Qed.

Lemma main_exit_zero_means_all_uploaded_witness :
  exists key files,
    Cli.api_key demo_arguments = Some key /\ key <> "" /\
    Cli.has_http_scheme (Cli.endpoint demo_arguments) = true /\
    Cli.collect_files (docs_fs docs_scan_1) (Cli.path demo_arguments)
      (Cli.recursive demo_arguments) = Cli.Collected files /\
    ((files = [] /\ Cli.main (docs_fs docs_scan_1) demo_world demo_arguments
                    = Cli.exit 0) \/
     exists r st,
       upload_files_to_knowledge demo_world (Cli.knowledge demo_arguments) files
         (Cli.create demo_arguments) (Cli.description demo_arguments)
         (mkState (init (Cli.endpoint demo_arguments) key) [])
       = (Ret r, st) /\
       failed r = 0%Z /\ success r = len files /\ total r = len files /\
       errors r = [] /\
       Cli.main (docs_fs docs_scan_1) demo_world demo_arguments
       = Cli.mkRun 0 (Cli.summary r) (trace st)).
Proof.
  apply (main_exit_zero_means_all_uploaded (docs_fs docs_scan_1) demo_world
           demo_arguments).
  reflexivity.
Defined.

(** X19. One file that the allow-list turns away is enough for exit code
    1: whenever the collected files include such a path ([.DS_Store], an
    image, a file without extension), [main] does not exit with 0, whatever
    the service answers. *)
Theorem main_fails_on_any_disallowed_file fs w args files p :
  Cli.collect_files fs (Cli.path args) (Cli.recursive args) = Cli.Collected files ->
  In p files ->
  is_allowed_file p = false ->
  Cli.exit_code (Cli.main fs w args) = 1%Z.
Proof.
  intros Hc Hin Hno. unfold Cli.main. rewrite Hc.
  destruct (Cli.api_key args) as [key|]; [|reflexivity].
  destruct (String.eqb key ""); [reflexivity|].
  destruct (negb (Cli.has_http_scheme (Cli.endpoint args))); [reflexivity|].
  destruct files as [|f files]; [destruct Hin|].
  destruct (upload_files_to_knowledge w (Cli.knowledge args) (f :: files)
              (Cli.create args) (Cli.description args)
              (mkState (init (Cli.endpoint args) key) []))
    as [[r|e] st] eqn:Erun; [|reflexivity].
  apply batch_result_shape in Erun. destruct Erun as (_ & _ & _ & Hex).
  specialize (Hex p Hin Hno). cbn [Cli.exit_code].
  destruct (failed r >? 0)%Z eqn:Ef; [reflexivity|]. lia.
Qed.

Lemma main_fails_on_any_disallowed_file_witness :
  Cli.exit_code
    (Cli.main (docs_fs ("docs/.DS_Store" :: docs_scan_1)) demo_world demo_arguments)
  = 1%Z.
Proof.
  apply (main_fails_on_any_disallowed_file
           (docs_fs ("docs/.DS_Store" :: docs_scan_1)) demo_world demo_arguments
           ["docs/.DS_Store"; "docs/a.md"; "docs/b.txt"; "docs/sub/c.pdf"]
           "docs/.DS_Store").
  - reflexivity.
  - left. reflexivity.
  - reflexivity.
Defined.

(** X20. A service that wraps its listing in a JSON object makes the whole
    command fail: the lookup raises, [main] catches the exception, prints
    no summary and exits with 1, after the listing requests alone. *)
Theorem main_exits_1_on_wrapped_listing fs w args key f files k v kv st1 :
  Cli.api_key args = Some key ->
  key <> "" ->
  Cli.has_http_scheme (Cli.endpoint args) = true ->
  Cli.collect_files fs (Cli.path args) (Cli.recursive args)
  = Cli.Collected (f :: files) ->
  list_knowledge_collections w (mkState (init (Cli.endpoint args) key) [])
  = (Ret (JObj ((k, v) :: kv)), st1) ->
  Cli.main fs w args = Cli.mkRun 1 [] (trace st1).
Proof.
  intros Hk Hne Hs Hc Hl. unfold Cli.main. rewrite Hk, Hs, Hc.
  apply String.eqb_neq in Hne. rewrite Hne. cbn [negb].
  rewrite upload_files_to_knowledge_run. cbn zeta.
  rewrite get_knowledge_collection_id_run, Hl. reflexivity.
Qed.

Lemma main_exits_1_on_wrapped_listing_witness :
  Cli.main (docs_fs docs_scan_1) odd_world demo_arguments
  = Cli.mkRun 1 []
      (trace (snd (list_knowledge_collections odd_world
                     (mkState (init "http://h/" "secret") [])))).
Proof.
  apply (main_exits_1_on_wrapped_listing (docs_fs docs_scan_1) odd_world
           demo_arguments "secret" "docs/a.md" ["docs/b.txt"; "docs/sub/c.pdf"]
           "items" docs_listing [("total", JNum 3)]); try reflexivity.
  discriminate.
Defined.

(** X21. With files to upload, a collection that is not found and no
    [--create], [main] exits with 1 after the lookup alone and prints the
    summary of a batch in which every file failed: [Successful: 0],
    [Failed: N] and the one [not found] message. *)
Theorem main_reports_missing_collection fs w args key f files found_id st1 :
  Cli.api_key args = Some key ->
  key <> "" ->
  Cli.has_http_scheme (Cli.endpoint args) = true ->
  Cli.collect_files fs (Cli.path args) (Cli.recursive args)
  = Cli.Collected (f :: files) ->
  Cli.create args = false ->
  get_knowledge_collection_id w (Cli.knowledge args)
    (mkState (init (Cli.endpoint args) key) []) = (Ret found_id, st1) ->
  truthy found_id = false ->
  let n := len (f :: files) in
  Cli.main fs w args
  = Cli.mkRun 1
      (Cli.summary
         (mkBatch 0 n n
            [("Knowledge collection '" ++ Cli.knowledge args ++ "' not found")%string]))
      (trace st1) /\
  In ("Successful: 0")%string (Cli.stdout (Cli.main fs w args)) /\
  In ("Failed: " ++ Cli.str_of_int n)%string (Cli.stdout (Cli.main fs w args)) /\
  In ("  - Knowledge collection '" ++ Cli.knowledge args ++ "' not found")%string
     (Cli.stdout (Cli.main fs w args)).
Proof.
  intros Hk Hne Hs Hc Hcr Hid Hfalsy. cbn zeta.
  assert (Hmain : Cli.main fs w args
                  = Cli.mkRun 1
                      (Cli.summary
                         (mkBatch 0 (len (f :: files)) (len (f :: files))
                            [("Knowledge collection '" ++ Cli.knowledge args
                              ++ "' not found")%string]))
                      (trace st1)).
  { unfold Cli.main. rewrite Hk, Hs, Hc.
    apply String.eqb_neq in Hne. rewrite Hne. cbn [negb].
    rewrite upload_files_to_knowledge_run. cbn zeta.
    rewrite Hid, Hfalsy, Hcr. unfold all_failed. cbn [failed].
    replace (len (f :: files) >? 0)%Z with true; [reflexivity|].
    unfold len. cbn [List.length]. symmetry. apply Z.gtb_lt. lia. }
  split; [exact Hmain|]. rewrite Hmain. cbn [Cli.stdout].
  unfold Cli.summary. cbn [success failed total errors map app].
  repeat split.
  - do 4 right. left. reflexivity.
  - do 5 right. left. reflexivity.
  - do 7 right. left. reflexivity.
Qed.

Lemma main_reports_missing_collection_witness :
  Cli.main (docs_fs docs_scan_1) demo_world
    (Cli.mkArguments "http://h/" (Some "secret") "nope" false "" "docs" true false)
  = Cli.mkRun 1
      (Cli.summary (mkBatch 0 3 3 ["Knowledge collection 'nope' not found"]))
      (trace (snd (get_knowledge_collection_id demo_world "nope"
                     (mkState (init "http://h/" "secret") [])))).
Proof.
  assert (Hkey : "secret" <> "") by discriminate.
  exact (proj1 (main_reports_missing_collection (docs_fs docs_scan_1) demo_world
                  (Cli.mkArguments "http://h/" (Some "secret") "nope" false ""
                     "docs" true false)
                  "secret" "docs/a.md" ["docs/b.txt"; "docs/sub/c.pdf"] JNull
                  (snd (get_knowledge_collection_id demo_world "nope"
                          (mkState (init "http://h/" "secret") [])))
                  eq_refl Hkey eq_refl eq_refl eq_refl eq_refl eq_refl)).
Defined.
